(** * SOWFA internal-coupling writer ([coupling/sowfa.py])

    A shallow embedding of the class [InternalCoupling]: the constructor, which
    binds a time window of a pandas data frame and derives the column
    [t_index], and the three export methods [write_BCs], [write_ICs] and
    [write_timeheight].

    Conventions of the embedding:
    - a time label (pandas [Timestamp] or [Timedelta]) is its count of
      nanoseconds, a [Z];
    - a cell of a data column is a binary64 number, Rocq's primitive [float];
      a missing value is NaN, as in pandas;
    - a data frame is column-major, like pandas: the row labels and an ordered
      association list of named columns;
    - a Python exception is a value of [exn]; a method is a function from the
      world (the writer object and the file system) to an outcome and the new
      world, so that what a failing call leaves behind is visible. *)

From Stdlib Require Import ZArith List String Ascii Bool Lia Sorted.
From Stdlib Require Import PrimFloat FloatOps SpecFloat Uint63.
From stdpp Require Import gmap strings.
Import ListNotations.

Set Warnings "-inexact-float".
Local Open Scope string_scope.
Local Open Scope list_scope.
Local Open Scope Z_scope.

(** ** Binary64 numbers and C's [%g] conversion *)

Module Float64.

(** An [int64] count converted to the nearest binary64 number, as numpy does
    before a true division. *)
Definition of_int64 (z : Z) : float :=
  if z <? 0 then PrimFloat.opp (PrimFloat.of_uint63 (Uint63.of_Z (- z)))
  else PrimFloat.of_uint63 (Uint63.of_Z z).

(** [pd.isna] on a float cell. *)
Definition isna (x : float) : bool := PrimFloat.is_nan x.

(** Equality of keys in pandas' hash tables ([unique], [factorize]): numeric
    equality, with every NaN equal to every NaN. *)
Definition same_key (x y : float) : bool :=
  PrimFloat.eqb x y || (PrimFloat.is_nan x && PrimFloat.is_nan y).

Definition digit (d : Z) : ascii := ascii_of_nat (48 + Z.to_nat d).

Fixpoint digits_of (fuel : nat) (n : Z) (acc : list ascii) : list ascii :=
  match fuel with
  | O => acc
  | S k =>
      let acc' := digit (n mod 10) :: acc in
      if n / 10 =? 0 then acc' else digits_of k (n / 10) acc'
  end.

(** The decimal digits of a natural number. *)
Definition decimal (n : Z) : list ascii :=
  digits_of (S (Z.to_nat (Z.log2 n))) n [].

(** [10^k <= num/den], for positive [num] and [den]. *)
Definition pow10_le (k num den : Z) : bool :=
  if 0 <=? k then 10 ^ k * den <=? num else den <=? num * 10 ^ (- k).

Fixpoint adjust_down (fuel : nat) (k num den : Z) : Z :=
  match fuel with
  | O => k
  | S f => if pow10_le k num den then k else adjust_down f (k - 1) num den
  end.

Fixpoint adjust_up (fuel : nat) (k num den : Z) : Z :=
  match fuel with
  | O => k
  | S f => if pow10_le (k + 1) num den then adjust_up f (k + 1) num den else k
  end.

(** The decimal exponent [X] of [num/den]: [10^X <= num/den < 10^(X+1)]. *)
Definition exponent10 (num den : Z) : Z :=
  let est := ((Z.log2 num - Z.log2 den) * 30103) / 100000 in
  adjust_up 4 (adjust_down 4 est num den) num den.

(** [num/den] rounded to an integer, ties to even. *)
Definition round_half_even (num den : Z) : Z :=
  let q := num / den in
  let r := num mod den in
  if (den <? 2 * r) || ((den =? 2 * r) && Z.odd q) then q + 1 else q.

Fixpoint strip_zeros_rev (l : list ascii) : list ascii :=
  match l with
  | c :: l' => if Ascii.eqb c "0"%char then strip_zeros_rev l' else l
  | [] => []
  end.

Definition strip_trailing_zeros (l : list ascii) : list ascii :=
  rev (strip_zeros_rev (rev l)).

Definition with_fraction (int_part frac : list ascii) : list ascii :=
  match strip_trailing_zeros frac with
  | [] => int_part
  | f => int_part ++ "."%char :: f
  end.

Definition exponent_suffix (x : Z) : list ascii :=
  let d := decimal (Z.abs x) in
  "e"%char :: (if x <? 0 then "-"%char else "+"%char)
    :: (if (length d <? 2)%nat then "0"%char :: d else d).

(** A positive finite number [m * 2^e] in the style [%.{p}g]. *)
Definition format_finite (p : Z) (m e : Z) : list ascii :=
  let num := if 0 <=? e then m * 2 ^ e else m in
  let den := if 0 <=? e then 1 else 2 ^ (- e) in
  let x0 := exponent10 num den in
  let k := p - 1 - x0 in
  let q0 := if 0 <=? k then round_half_even (num * 10 ^ k) den
            else round_half_even num (den * 10 ^ (- k)) in
  let carry := 10 ^ p <=? q0 in
  let q := if carry then 10 ^ (p - 1) else q0 in
  let x := if carry then x0 + 1 else x0 in
  let ds := decimal q in
  if (x <? -4) || (p <=? x) then
    with_fraction (firstn 1 ds) (skipn 1 ds) ++ exponent_suffix x
  else if 0 <=? x then
    with_fraction (firstn (Z.to_nat (x + 1)) ds) (skipn (Z.to_nat (x + 1)) ds)
  else
    with_fraction ["0"%char] (repeat "0"%char (Z.to_nat (- x - 1)) ++ ds).

(** Python's ["%.{p}g" % x] ([%g] is [%.6g]; a precision of zero counts as
    one). *)
Definition format_g (p : nat) (x : float) : string :=
  let p' := Z.max 1 (Z.of_nat p) in
  string_of_list_ascii
    match Prim2SF x with
    | S754_nan => ["n"; "a"; "n"]%char
    | S754_infinity s =>
        (if s then ["-"%char] else []) ++ ["i"; "n"; "f"]%char
    | S754_zero s => (if s then ["-"%char] else []) ++ ["0"%char]
    | S754_finite s m e =>
        (if s then ["-"%char] else []) ++ format_finite p' (Z.pos m) e
    end.

End Float64.

(** ** Exceptions and the effect monad *)

(** The Python exceptions the class can raise. An [assert] without a message
    raises [AssertionError None]. *)
Inductive exn : Type :=
| AssertionError (msg : option string)
| IndexError
| KeyError
| ValueError
| TypeError
| AttributeError.

(** A computation over a mutable state [S]: it ends in a value or in an
    exception, and in both cases leaves a state behind. *)
Definition M (S A : Type) : Type := S -> (exn + A) * S.

Definition ret {S A} (a : A) : M S A := fun s => (inr a, s).

Definition raise {S A} (e : exn) : M S A := fun s => (inl e, s).

Definition bind {S A B} (c : M S A) (k : A -> M S B) : M S B :=
  fun s =>
    match c s with
    | (inr a, s') => k a s'
    | (inl e, s') => (inl e, s')
    end.

Definition modify {S} (f : S -> S) : M S unit := fun s => (inr tt, f s).

(** A pure computation that may raise. *)
Definition lift {S A} (r : exn + A) : M S A := fun s => (r, s).

Declare Scope py_scope.
Delimit Scope py_scope with py.
Notation "x <- c ;; k" := (bind c (fun x => k))
  (at level 100, c at next level, right associativity) : py_scope.
Notation "c ;; k" := (bind c (fun _ => k))
  (at level 100, right associativity) : py_scope.
Local Open Scope py_scope.

(** [assert cond, msg] *)
Definition assert {S} (cond : bool) (msg : option string) : M S unit :=
  if cond then ret tt else raise (AssertionError msg).

(** [for x in l: body x] *)
Fixpoint for_each {S A} (l : list A) (body : A -> M S unit) : M S unit :=
  match l with
  | [] => ret tt
  | x :: l' => body x ;; for_each l' body
  end.

(** The messages of the class's assertions. *)
Definition msg_no_data : string := "No data for requested period of time".
Definition msg_not_in_df (field : string) : string :=
  "Field " ++ field ++ " not in df".
Definition msg_not_complete (field : string) : string :=
  "Field " ++ field ++ " is not complete (contains NaNs)".
Definition msg_all_momentum : string :=
  "Need to specify all momentum components".

(** ** Data frames: the part of pandas the class uses *)

(** The two kinds of time labels the constructor's docstring allows. Both are
    counts of nanoseconds. *)
Inductive index_kind : Type := DatetimeIndex | TimedeltaIndex.

(** A frame indexed by time labels: the labels, in row order, and the named
    float columns, in column order. Every column has one cell per label. *)
Record DataFrame : Type := {
  kind : index_kind;
  name : option string;
  index : list Z;
  columns : list (string * list float) }.

(** A column of a frame whose index has been reset: floats, or the former
    time labels. *)
Inductive column : Type :=
| Floats (v : list float)
| Times (k : index_kind) (v : list Z).

(** A frame with a plain [RangeIndex]: only its columns matter. *)
Definition RangeFrame : Type := list (string * column).

(** The row of a frame, as [df.loc[label]] returns it when a single row
    matches. *)
Definition Series : Type := list (string * float).

Module Pandas.

Fixpoint lookup_column {V} (c : string) (cols : list (string * V)) : option V :=
  match cols with
  | [] => None
  | (c', v) :: cols' => if String.eqb c c' then Some v else lookup_column c cols'
  end.

(** [df[c] = v]: the column is replaced where it stands, or appended. *)
Fixpoint assign_column {V} (c : string) (v : V) (cols : list (string * V))
  : list (string * V) :=
  match cols with
  | [] => [(c, v)]
  | (c', v') :: cols' =>
      if String.eqb c c' then (c, v) :: cols'
      else (c', v') :: assign_column c v cols'
  end.

(** [c in df.columns] *)
Definition has_column (c : string) (df : DataFrame) : bool :=
  existsb (String.eqb c) (map fst (columns df)).

(** [df[c]] *)
Definition getitem (c : string) (df : DataFrame) : exn + list float :=
  match lookup_column c (columns df) with
  | Some v => inr v
  | None => inl KeyError
  end.

(** [df.c], attribute access to a column. *)
Definition getattr (c : string) (df : DataFrame) : exn + list float :=
  match lookup_column c (columns df) with
  | Some v => inr v
  | None => inl AttributeError
  end.

(** [df[c] = v] *)
Definition setitem (c : string) (v : list float) (df : DataFrame) : DataFrame :=
  {| kind := kind df; name := name df; index := index df;
     columns := assign_column c v (columns df) |}.

(** [df.loc[:, c] = x] with a scalar [x]. *)
Definition fill_column (c : string) (x : float) (df : DataFrame) : DataFrame :=
  setitem c (repeat x (length (index df))) df.

(** [df.index[0]] and [df.index[-1]] *)
Definition index_first (df : DataFrame) : exn + Z :=
  match head (index df) with Some l => inr l | None => inl IndexError end.

Definition index_last (df : DataFrame) : exn + Z :=
  match last (index df) with Some l => inr l | None => inl IndexError end.

(** The rows a boolean mask keeps. *)
Fixpoint take_mask {A} (mask : list bool) (l : list A) : list A :=
  match mask, l with
  | b :: mask', x :: l' =>
      if b then x :: take_mask mask' l' else take_mask mask' l'
  | _, _ => []
  end.

(** [df.index >= d], [df.index <= d], [df.index == d] and [m1 & m2] *)
Definition index_ge (df : DataFrame) (d : Z) : list bool :=
  map (fun l => d <=? l) (index df).

Definition index_le (df : DataFrame) (d : Z) : list bool :=
  map (fun l => l <=? d) (index df).

Definition index_eq (df : DataFrame) (d : Z) : list bool :=
  map (fun l => l =? d) (index df).

Definition mask_and (m1 m2 : list bool) : list bool := zip_with andb m1 m2.

(** [df.loc[mask]] *)
Definition loc_mask (df : DataFrame) (mask : list bool) : DataFrame :=
  {| kind := kind df; name := name df;
     index := take_mask mask (index df);
     columns := map (fun '(c, v) => (c, take_mask mask v)) (columns df) |}.

(** [df.copy()]: a frame of its own; values have no identity here. *)
Definition copy {A} (x : A) : A := x.

(** [df.loc[label]]: one matching row comes back as a [Series], several as
    a frame, none is a [KeyError]. *)
Definition loc_label (df : DataFrame) (label : Z) : exn + (Series + DataFrame) :=
  let hit := loc_mask df (index_eq df label) in
  match index hit with
  | [] => inl KeyError
  | [_] => inr (inl (map (fun '(c, v) => (c, hd PrimFloat.nan v)) (columns hit)))
  | _ => inr (inr hit)
  end.

(** [s.unique()]: the distinct values in order of first appearance. *)
Fixpoint unique {A} (eq : A -> A -> bool) (l : list A) : list A :=
  match l with
  | [] => []
  | x :: l' => x :: List.filter (fun y => negb (eq x y)) (unique eq l')
  end.

Fixpoint insert_sorted {A} (lt : A -> A -> bool) (x : A) (l : list A) : list A :=
  match l with
  | [] => [x]
  | y :: l' => if lt y x then y :: insert_sorted lt x l' else x :: l
  end.

(** The ascending order of the levels of an unstacked index. *)
Definition sort {A} (lt : A -> A -> bool) (l : list A) : list A :=
  fold_right (insert_sorted lt) [] l.

Fixpoint has_duplicates {A} (eq : A -> A -> bool) (l : list A) : bool :=
  match l with
  | [] => false
  | x :: l' => existsb (eq x) l' || has_duplicates eq l'
  end.

(** [pd.isna(s).any()] *)
Definition any_isna (v : list float) : bool := existsb Float64.isna v.

(** [df.reset_index()]: the labels become the first column, under the
    index's name. *)
Definition reset_index (df : DataFrame) : exn + RangeFrame :=
  let nm := match name df with
            | Some n => n
            | None => if has_column "index" df then "level_0" else "index"
            end in
  if has_column nm df then inl ValueError
  else inr ((nm, Times (kind df) (index df))
            :: map (fun '(c, v) => (c, Floats v)) (columns df)).

Definition range_getitem (c : string) (rf : RangeFrame) : exn + column :=
  match lookup_column c rf with
  | Some v => inr v
  | None => inl KeyError
  end.

(** [col - dateref] for a [Timestamp] [dateref]: only timestamps can be
    subtracted from; the differences are durations. *)
Definition sub_timestamp (col : column) (dateref : Z) : exn + list Z :=
  match col with
  | Times DatetimeIndex v => inr (map (fun t => t - dateref) v)
  | Times TimedeltaIndex _ => inl TypeError
  | Floats _ => inl TypeError
  end.

(** [pd.to_datetime(dateref)]: the instant itself. *)
Definition to_datetime (dateref : Z) : Z := dateref.

(** [pd.Timedelta(1, unit='s')], in nanoseconds. *)
Definition one_second : Z := 1000000000.

(** [deltas / tdelta]: true division of the two counts. *)
Definition div_timedelta (deltas : list Z) (tdelta : Z) : list float :=
  map (fun d => PrimFloat.div (Float64.of_int64 d) (Float64.of_int64 tdelta))
      deltas.

Fixpoint float_columns (rf : RangeFrame) : option (list (string * list float)) :=
  match rf with
  | [] => Some []
  | (c, Floats v) :: rf' =>
      match float_columns rf' with
      | Some cols => Some ((c, v) :: cols)
      | None => None
      end
  | (_, Times _ _) :: _ => None
  end.

Fixpoint drop_column {V} (c : string) (cols : list (string * V))
  : list (string * V) :=
  match cols with
  | [] => []
  | (c', v) :: cols' =>
      if String.eqb c c' then cols' else (c', v) :: drop_column c cols'
  end.

(** [df.set_index(c)]: the column [c] becomes the index. Frames here are
    indexed by time labels and hold float columns; any other outcome is a
    [TypeError] of the embedding (the constructor never reaches it). *)
Definition set_index (c : string) (rf : RangeFrame) : exn + DataFrame :=
  match lookup_column c rf with
  | None => inl KeyError
  | Some (Floats _) => inl TypeError
  | Some (Times k v) =>
      match float_columns (drop_column c rf) with
      | Some cols =>
          inr {| kind := k; name := Some c; index := v; columns := cols |}
      | None => inl TypeError
      end
  end.

(** [df.index.total_seconds()]: an attribute of a [TimedeltaIndex] only. *)
Definition total_seconds (df : DataFrame) : exn + list float :=
  match kind df with
  | TimedeltaIndex =>
      inr (map (fun d => PrimFloat.div (Float64.of_int64 d) 1e9%float)
               (index df))
  | DatetimeIndex => inl AttributeError
  end.

(** The result of [df.pivot(columns='height', values=fields)]: the distinct
    labels and the distinct heights, both ascending, and for each requested
    field its dense table, one row per label and one cell per height. *)
Record Pivot : Type := {
  pivot_index : list Z;
  pivot_columns : list float;
  pivot_tables : list (string * list (list float)) }.

(** The cell of a field at a label and a height; NaN when the frame has no
    such row. *)
Definition pivot_cell (labels : list Z) (heights values : list float)
    (r : Z) (c : float) : float :=
  match List.find (fun '(l, h, _) => (l =? r) && Float64.same_key h c)
                  (combine (combine labels heights) values) with
  | Some (_, _, v) => v
  | None => PrimFloat.nan
  end.

Definition same_cell (a b : Z * float) : bool :=
  (fst a =? fst b) && Float64.same_key (snd a) (snd b).

Fixpoint any_missing (fields : list string) (df : DataFrame) : bool :=
  match fields with
  | [] => false
  | f :: fields' => negb (has_column f df) || any_missing fields' df
  end.

Definition pivot (df : DataFrame) (fields : list string) : exn + Pivot :=
  match lookup_column "height" (columns df) with
  | None => inl KeyError
  | Some heights =>
      if any_missing fields df then inl KeyError
      else if has_duplicates same_cell (combine (index df) heights)
      then inl ValueError
      else
        let rows := sort Z.ltb (unique Z.eqb (index df)) in
        let cols := sort PrimFloat.ltb (unique Float64.same_key heights) in
        inr {| pivot_index := rows;
               pivot_columns := cols;
               pivot_tables :=
                 map (fun f =>
                        let values :=
                          match lookup_column f (columns df) with
                          | Some v => v
                          | None => []
                          end in
                        (f, map (fun r =>
                                   map (pivot_cell (index df) heights values r)
                                       cols)
                                rows))
                     fields |}
  end.

End Pandas.

(** ** Arrays and [savetxt]: the part of numpy the class uses *)

(** A two-dimensional array, row-major; [shape] is (rows, columns). *)
Record ndarray : Type := {
  shape : nat * nat;
  data : list (list float) }.

(** A format of [savetxt]'s [fmt] list: [prefix%.{precision}gsuffix]. *)
Record conversion : Type := {
  prefix : string;
  precision : nat;
  suffix : string }.

Module Numpy.

(** [v.reshape((n, 1))] for a one-dimensional [v] of size [n]. *)
Definition column_vector (v : list float) : ndarray :=
  {| shape := (length v, 1%nat); data := map (fun x => [x]) v |}.

(** [np.concatenate((a, b), axis=1)] *)
Definition hstack (a b : ndarray) : exn + ndarray :=
  if (fst (shape a) =? fst (shape b))%nat
  then inr {| shape := (fst (shape a), (snd (shape a) + snd (shape b))%nat);
              data := zip_with (@app float) (data a) (data b) |}
  else inl ValueError.

(** [np.concatenate(arrays, axis=1)] for a non-empty tuple of arrays. *)
Fixpoint concatenate (first : ndarray) (others : list ndarray) : exn + ndarray :=
  match others with
  | [] => inr first
  | b :: others' =>
      match hstack first b with
      | inr ab => concatenate ab others'
      | inl e => inl e
      end
  end.

(** ['%g'] and ['%.12g'], with the literal text around them. *)
Definition g (pre suf : string) : conversion :=
  {| prefix := pre; precision := 6; suffix := suf |}.

Definition g12 (pre suf : string) : conversion :=
  {| prefix := pre; precision := 12; suffix := suf |}.

Definition convert (c : conversion) (x : float) : string :=
  prefix c +:+ Float64.format_g (precision c) x +:+ suffix c.

Definition newline : string := String "010"%char EmptyString.

(** A row of [savetxt]: the formats joined by the delimiter, a space, and
    applied to the row. *)
Definition format_row (fmt : list conversion) (row : list float) : string :=
  String.concat " " (zip_with convert fmt row) +:+ newline.

End Numpy.

(** ** The file system *)

(** Directories and regular files, by path; a file is its text. Failures of
    the operating system itself (permissions, a full disk, a missing parent
    directory) are not part of the embedding: the calls below always
    succeed. *)
Record FileSystem : Type := {
  dirs : gset string;
  files : gmap string string }.

Module Os.

(** [os.path.isdir(p)] *)
Definition isdir (p : string) : M FileSystem bool :=
  fun s => (inr (bool_decide (p ∈ dirs s)), s).

(** [os.mkdir(p)] *)
Definition mkdir (p : string) : M FileSystem unit :=
  modify (fun s => {| dirs := {[p]} ∪ dirs s; files := files s |}).

Fixpoint ends_with_slash (s : string) : bool :=
  match s with
  | EmptyString => false
  | String c EmptyString => Ascii.eqb c "/"%char
  | String _ s' => ends_with_slash s'
  end.

(** [os.path.join(a, p)] *)
Definition path_join (a p : string) : string :=
  if String.prefix "/" p then p
  else if String.eqb a "" || ends_with_slash a then a +:+ p
  else a +:+ "/" +:+ p.

(** [open(path, 'w')]: the file is created or emptied; the handle is the
    path. *)
Definition written (path text : string) (s : FileSystem) : FileSystem :=
  {| dirs := dirs s; files := <[path := text]> (files s) |}.

Definition open_w (path : string) : M FileSystem string :=
  fun s => (inr path, written path "" s).

(** [fid.write(text)] *)
Definition appended (fid text : string) (s : FileSystem) : FileSystem :=
  written fid (default "" (files s !! fid) +:+ text) s.

Definition write (fid text : string) : M FileSystem unit :=
  modify (appended fid text).

End Os.

(** [np.savetxt(fid, X, fmt=fmt, header=header, footer=footer, comments='')]
    with a list [fmt]: the shape of [fmt] is checked before anything is
    written; a header or footer, when not empty, is a line of its own. *)
Definition savetxt (fid : string) (X : ndarray) (fmt : list conversion)
    (header footer : string) : M FileSystem unit :=
  if negb (length fmt =? snd (shape X))%nat then raise AttributeError
  else
    (if String.eqb header "" then ret tt
     else Os.write fid (header +:+ Numpy.newline)) ;;
    for_each (data X) (fun row => Os.write fid (Numpy.format_row fmt row)) ;;
    (if String.eqb footer "" then ret tt
     else Os.write fid (footer +:+ Numpy.newline)).

(** [v.reshape((n, 1))]: the size must be [n]. *)
Definition reshape (v : list float) (n : nat) : exn + ndarray :=
  if (length v =? n)%nat then inr (Numpy.column_vector v) else inl ValueError.

(** [df_pivot[field].values]: every table stored under the name, side by
    side. *)
Definition pivot_values (field : option string) (pv : Pandas.Pivot) : exn + ndarray :=
  match field with
  | None => inl KeyError
  | Some f =>
      match List.filter (fun t => String.eqb f (fst t)) (Pandas.pivot_tables pv) with
      | [] => inl KeyError
      | t :: ts =>
          inr {| shape := (length (Pandas.pivot_index pv),
                           (length (t :: ts) * length (Pandas.pivot_columns pv))%nat);
                 data := fold_left (fun acc t' => zip_with (@app float) acc (snd t'))
                                   ts (snd t) |}
      end
  end.

(** [pd.isna(table).any().any()] *)
Definition table_any_isna (X : ndarray) : bool := existsb Pandas.any_isna (data X).

(** ** The class [InternalCoupling] *)

(** The attributes of an instance. *)
Record Writer : Type := {
  dpath : string;
  df : DataFrame;
  datefrom : Z }.

(** What a method call can read and change: the instance and the files. *)
Record World : Type := {
  self : Writer;
  fs : FileSystem }.

Definition on_fs {A} (c : M FileSystem A) : M World A :=
  fun w =>
    let (r, fs') := c (fs w) in
    (r, {| self := self w; fs := fs' |}).

Definition get_self : M World Writer := fun w => (inr (self w), w).

(** [self.df = d], or an update of [self.df] in place. *)
Definition set_df (d : DataFrame) : M World unit :=
  modify (fun w =>
            {| self := {| dpath := dpath (self w); df := d;
                          datefrom := datefrom (self w) |};
               fs := fs w |}).

Module InternalCoupling.

(** [__init__(self, dpath, df, dateref=None, datefrom=None, dateto=None)] *)
Definition init (dpath : string) (df : DataFrame)
    (dateref datefrom dateto : option Z) : M FileSystem Writer :=
  is_dir <- Os.isdir dpath ;;
  (if negb is_dir then Os.mkdir dpath else ret tt) ;;
  datefrom <- match datefrom with
              | None => lift (Pandas.index_first df)
              | Some d => ret d
              end ;;
  dateto <- match dateto with
            | None => lift (Pandas.index_last df)
            | Some d => ret d
            end ;;
  let bound :=
    Pandas.copy
      (Pandas.loc_mask df (Pandas.mask_and (Pandas.index_ge df datefrom)
                                           (Pandas.index_le df dateto))) in
  assert (0 <? length (Pandas.unique Z.eqb (index bound)))%nat
         (Some msg_no_data) ;;
  bound <- match dateref with
           | Some dateref =>
               let dateref := Pandas.to_datetime dateref in
               let tdelta := Pandas.one_second in
               flat <- lift (Pandas.reset_index bound) ;;
               datetime <- lift (Pandas.range_getitem "datetime" flat) ;;
               deltas <- lift (Pandas.sub_timestamp datetime dateref) ;;
               let flat :=
                 Pandas.assign_column
                   "t_index" (Floats (Pandas.div_timedelta deltas tdelta)) flat in
               lift (Pandas.set_index "datetime" flat)
           | None =>
               seconds <- lift (Pandas.total_seconds bound) ;;
               ret (Pandas.setitem "t_index" seconds bound)
           end ;;
  ret {| dpath := dpath; df := bound; datefrom := datefrom |}.

(** [write_BCs(self, fname, fieldname, fact=1.0)] *)
Definition write_BCs (fname fieldname : string) (fact : float) : M World unit :=
  self <- get_self ;;
  ts <- lift (Pandas.getattr "t_index" (df self)) ;;
  let nt := length ts in
  assert (Pandas.has_column fieldname (df self))
         (Some (msg_not_in_df fieldname)) ;;
  values <- lift (Pandas.getitem fieldname (df self)) ;;
  assert (negb (Pandas.any_isna values)) (Some (msg_not_complete fieldname)) ;;
  let fieldvalues := map (PrimFloat.mul fact) values in
  fid <- on_fs (Os.open_w (Os.path_join (dpath self) fname)) ;;
  let fmt := [Numpy.g "    (" ""; Numpy.g12 "" ")"] in
  c0 <- lift (reshape ts nt) ;;
  c1 <- lift (reshape fieldvalues nt) ;;
  X <- lift (Numpy.concatenate c0 [c1]) ;;
  on_fs (savetxt fid X fmt "" "").

(** The loop [for field in fieldNames: if not field in df.columns:
    df.loc[:,field] = 0.0] on a local frame. *)
Definition zero_fill (fieldNames : list string) (d : DataFrame) : DataFrame :=
  fold_left (fun d field =>
               if negb (Pandas.has_column field d)
               then Pandas.fill_column field 0%float d else d)
            fieldNames d.

(** [write_ICs(self, fname, xmom='u', ymom='v', temp='theta')] *)
Definition write_ICs (fname xmom ymom temp : string) : M World unit :=
  self <- get_self ;;
  snapshot <- lift (Pandas.loc_label (df self) (datefrom self)) ;;
  match Pandas.copy snapshot with
  | inl _ =>
      (* a Series has no attribute [columns] *)
      raise AttributeError
  | inr df =>
      let fieldNames := [xmom; ymom; temp] in
      let df := zero_fill fieldNames df in
      zs <- lift (Pandas.getattr "height" df) ;;
      let nz := length zs in
      for_each fieldNames
        (fun field =>
           values <- lift (Pandas.getitem field df) ;;
           assert (negb (Pandas.any_isna values)) None) ;;
      fid <- on_fs (Os.open_w (Os.path_join (dpath self) fname)) ;;
      let fmt := [Numpy.g "    (" ""] ++ repeat (Numpy.g12 "" "") 2
                 ++ [Numpy.g12 "" ")"] in
      c0 <- lift (reshape zs nz) ;;
      vx <- lift (Pandas.getitem xmom df) ;;
      c1 <- lift (reshape vx nz) ;;
      vy <- lift (Pandas.getitem ymom df) ;;
      c2 <- lift (reshape vy nz) ;;
      vt <- lift (Pandas.getitem temp df) ;;
      c3 <- lift (reshape vt nz) ;;
      X <- lift (Numpy.concatenate c0 [c1; c2; c3]) ;;
      on_fs (savetxt fid X fmt "" "")
  end.

(** [comp is not None] *)
Definition is_not_None {A} (x : option A) : bool :=
  match x with Some _ => true | None => false end.

(** The truth value of [temp] in [if temp:]: a name that is not empty. *)
Definition truthy (x : option string) : bool :=
  match x with Some s => negb (String.eqb s "") | None => false end.

(** The body of the loop that sets missing fields to zero: it assigns into
    [self.df] itself. *)
Definition zero_fill_self (field : option string) : M World unit :=
  self <- get_self ;;
  match field with
  | Some f =>
      if negb (Pandas.has_column f (df self))
      then set_df (Pandas.fill_column f 0%float (df self))
      else ret tt
  | None => ret tt
  end.

(** One table of the file: its name, then the times beside the field's
    dense table, between ["("] and [");"]. *)
Definition write_table (fid title : string) (field : option string)
    (ts : list float) (nt nz : nat) (df_pivot : Pandas.Pivot) : M World unit :=
  on_fs (Os.write fid (title +:+ Numpy.newline)) ;;
  let fmt := [Numpy.g "    (" ""] ++ repeat (Numpy.g12 "" "") (nz - 1)
             ++ [Numpy.g12 "" ")"] in
  c0 <- lift (reshape ts nt) ;;
  table <- lift (pivot_values field df_pivot) ;;
  X <- lift (Numpy.concatenate c0 [table]) ;;
  on_fs (savetxt fid X fmt "(" (");" +:+ Numpy.newline)).

(** The list of heights of the file, between ["("] and [");"]. *)
Definition write_heights (fid title : string) (zs : list float) : M World unit :=
  on_fs (Os.write fid (title +:+ Numpy.newline)) ;;
  on_fs (savetxt fid (Numpy.column_vector zs) [Numpy.g "    " ""]
                 "(" (");" +:+ Numpy.newline)).

(** [write_timeheight(self, fname, xmom=None, ymom=None, zmom=None,
    temp=None)] *)
Definition write_timeheight (fname : string) (xmom ymom zmom temp : option string)
  : M World unit :=
  let have_xyz_mom := map is_not_None [xmom; ymom; zmom] in
  write_mom <- (if existsb id have_xyz_mom
                then assert (forallb id have_xyz_mom) (Some msg_all_momentum) ;;
                     ret true
                else ret false) ;;
  self <- get_self ;;
  heights <- lift (Pandas.getattr "height" (df self)) ;;
  let zs := Pandas.unique Float64.same_key heights in
  t_index <- lift (Pandas.getattr "t_index" (df self)) ;;
  let ts := Pandas.unique Float64.same_key t_index in
  let nz := length zs in
  let nt := length ts in
  let fieldNames := [xmom; ymom; zmom; temp] in
  for_each fieldNames zero_fill_self ;;
  let fieldNames := omap id fieldNames in
  self <- get_self ;;
  df_pivot <- lift (Pandas.pivot (df self) fieldNames) ;;
  for_each fieldNames
    (fun field =>
       table <- lift (pivot_values (Some field) df_pivot) ;;
       assert (negb (table_any_isna table)) None) ;;
  fid <- on_fs (Os.open_w (Os.path_join (dpath self) fname)) ;;
  (if write_mom : bool
   then write_heights fid "sourceHeightsMomentum" zs ;;
        write_table fid "sourceTableMomentumX" xmom ts nt nz df_pivot ;;
        write_table fid "sourceTableMomentumY" ymom ts nt nz df_pivot ;;
        write_table fid "sourceTableMomentumZ" zmom ts nt nz df_pivot
   else ret tt) ;;
  (if truthy temp
   then write_heights fid "sourceHeightsTemperature" zs ;;
        write_table fid "sourceTableTemperature" temp ts nt nz df_pivot
   else ret tt).

End InternalCoupling.

(** ** Vocabulary of the statements *)

(** The frame seen row by row: each label with the cells of its row. A column
    that is too short reads as NaN. *)
Fixpoint rows (labels : list Z) (cols : list (string * list float))
  : list (Z * list (string * float)) :=
  match labels with
  | [] => []
  | l :: labels' =>
      (l, map (fun '(c, v) => (c, hd PrimFloat.nan v)) cols)
        :: rows labels' (map (fun '(c, v) => (c, tl v)) cols)
  end.

Definition is_t_index (cv : string * list float) : bool :=
  String.eqb "t_index" (fst cv).

(** The rows of the fields, the derived column [t_index] left aside. *)
Definition data_rows (d : DataFrame) : list (Z * list (string * float)) :=
  rows (index d) (List.filter (fun cv => negb (is_t_index cv)) (columns d)).

(** Every column has one cell per label. *)
Definition well_formed (d : DataFrame) : Prop :=
  Forall (fun cv => length (snd cv) = length (index d)) (columns d).

(** The window the constructor works with: an endpoint left out is the first
    or the last label of the data; an empty frame has neither. *)
Definition window (d : DataFrame) (datefrom dateto : option Z) : option (Z * Z) :=
  match (match datefrom with Some a => Some a | None => head (index d) end),
        (match dateto with Some b => Some b | None => last (index d) end) with
  | Some a, Some b => Some (a, b)
  | _, _ => None
  end.

Definition in_window (a b l : Z) : bool := (a <=? l) && (l <=? b).

(** A count of nanoseconds in seconds. *)
Definition seconds (ns : Z) : float :=
  PrimFloat.div (Float64.of_int64 ns) 1e9%float.

(** The two time bases: seconds since the reference instant, or the seconds
    of the label itself. *)
Definition elapsed (dateref : option Z) (label : Z) : float :=
  match dateref with
  | Some r => seconds (label - r)
  | None => seconds label
  end.

(** What each time base needs of the frame: with a reference instant, an
    index of timestamps called [datetime] and no field of that name; without
    one, an index of durations. *)
Definition time_base (dateref : option Z) (d : DataFrame) : bool :=
  match dateref, kind d, name d with
  | Some _, DatetimeIndex, Some n =>
      String.eqb n "datetime" && negb (Pandas.has_column "datetime" d)
  | None, TimedeltaIndex, _ => true
  | _, _, _ => false
  end.

(** The names the spec gives to the failed assertions. *)
Definition EmptyWindowError : exn := AssertionError (Some msg_no_data).
Definition MissingFieldError (field : string) : exn :=
  AssertionError (Some (msg_not_in_df field)).
Definition IncompleteMomentumSpecError : exn :=
  AssertionError (Some msg_all_momentum).
Definition IncompleteDataError (e : exn) : Prop :=
  e = AssertionError None \/ exists field, e = AssertionError (Some (msg_not_complete field)).

(** ** The bound copy *)

(** The frame the constructor binds: the rows of the window, with the column
    [t_index] of the chosen time base. *)
Definition bound_copy (d : DataFrame) (dateref : option Z) (a b : Z) : DataFrame :=
  let selected := Pandas.loc_mask d (map (in_window a b) (index d)) in
  Pandas.setitem "t_index" (map (elapsed dateref) (index selected)) selected.

(** The branch of the constructor that derives [t_index]. *)
Definition derive_t_index (dateref : option Z) (bound : DataFrame)
  : M FileSystem DataFrame :=
  match dateref with
  | Some dateref =>
      let dateref := Pandas.to_datetime dateref in
      let tdelta := Pandas.one_second in
      flat <- lift (Pandas.reset_index bound) ;;
      datetime <- lift (Pandas.range_getitem "datetime" flat) ;;
      deltas <- lift (Pandas.sub_timestamp datetime dateref) ;;
      let flat :=
        Pandas.assign_column
          "t_index" (Floats (Pandas.div_timedelta deltas tdelta)) flat in
      lift (Pandas.set_index "datetime" flat)
  | None =>
      seconds <- lift (Pandas.total_seconds bound) ;;
      ret (Pandas.setitem "t_index" seconds bound)
  end%py.

(** ** Example data *)

Definition sec (n : Z) : Z := n * 1000000000.

Definition no_files : FileSystem := {| dirs := ∅; files := ∅ |}.

(** Three instants of a surface flux, labelled by elapsed time. *)
Definition surface_fluxes : DataFrame :=
  {| kind := TimedeltaIndex; name := Some "t";
     index := [sec 0; sec 1; sec 2];
     columns := [("height", [0; 0; 0]%float); ("q", [1; -2; 3]%float)] |}.

(** Two instants of a profile over three heights, labelled by timestamps. *)
Definition profiles : DataFrame :=
  {| kind := DatetimeIndex; name := Some "datetime";
     index := [sec 100; sec 100; sec 100; sec 160; sec 160; sec 160];
     columns := [("height", [0; 10; 20; 0; 10; 20]%float);
                 ("u", [1; 2; 3; 4; 5; 6]%float);
                 ("theta", [300; 299; 298; 300; 299; 298]%float)] |}.

(** The world after [InternalCoupling("out", profiles, dateref)], the
    reference instant 40 s before the first profile. *)
Definition profiles_world : World :=
  {| self := {| dpath := "out";
                df := bound_copy profiles (Some (sec 40)) (sec 100) (sec 160);
                datefrom := sec 100 |};
     fs := {| dirs := {["out"]}; files := ∅ |} |}.

(** The world after [InternalCoupling("out", surface_fluxes)]. *)
Definition fluxes_world : World :=
  {| self := {| dpath := "out";
                df := bound_copy surface_fluxes None (sec 0) (sec 2);
                datefrom := sec 0 |};
     fs := {| dirs := {["out"]}; files := ∅ |} |}.

(** Two instants of a surface flux, the later one first. *)
Definition unsorted_fluxes : DataFrame :=
  {| kind := TimedeltaIndex; name := Some "t";
     index := [sec 1; sec 0];
     columns := [("q", [10; 20]%float)] |}.

(** The world after [InternalCoupling("out", unsorted_fluxes, datefrom=0 s,
    dateto=1 s)]. *)
Definition unsorted_world : World :=
  {| self := {| dpath := "out";
                df := bound_copy unsorted_fluxes None (sec 0) (sec 1);
                datefrom := sec 0 |};
     fs := {| dirs := {["out"]}; files := ∅ |} |}.

(** A frame without heights: two rows at one instant, the first value of [u]
    missing. *)
Definition no_heights : DataFrame :=
  {| kind := TimedeltaIndex; name := Some "t";
     index := [sec 0; sec 0];
     columns := [("u", [PrimFloat.nan; 1%float])] |}.

(** The world after [InternalCoupling("out", no_heights)]. *)
Definition no_heights_world : World :=
  {| self := {| dpath := "out";
                df := bound_copy no_heights None (sec 0) (sec 0);
                datefrom := sec 0 |};
     fs := {| dirs := {["out"]}; files := ∅ |} |}.

(** One instant of a wind profile, the higher level first. *)
Definition descending_heights : DataFrame :=
  {| kind := TimedeltaIndex; name := Some "t";
     index := [sec 0; sec 0];
     columns := [("height", [10; 0]%float); ("u", [1; 2]%float);
                 ("v", [3; 4]%float); ("w", [5; 6]%float)] |}.

(** The world after [InternalCoupling("out", descending_heights)]. *)
Definition descending_world : World :=
  {| self := {| dpath := "out";
                df := bound_copy descending_heights None (sec 0) (sec 0);
                datefrom := sec 0 |};
     fs := {| dirs := {["out"]}; files := ∅ |} |}.

(** Two instants of a wind profile over two heights, in ascending order. *)
Definition winds : DataFrame :=
  {| kind := TimedeltaIndex; name := Some "t";
     index := [sec 0; sec 0; sec 600; sec 600];
     columns := [("height", [0; 10; 0; 10]%float); ("u", [1; 2; 3; 4]%float);
                 ("v", [5; 6; 7; 8]%float); ("w", [0; 0; 0; 0]%float)] |}.

(** The world after [InternalCoupling("out", winds)]. *)
Definition winds_world : World :=
  {| self := {| dpath := "out";
                df := bound_copy winds None (sec 0) (sec 600);
                datefrom := sec 0 |};
     fs := {| dirs := {["out"]}; files := ∅ |} |}.

(** ** What a computation can raise, and what it leaves unchanged *)

(** Every exception [c] can raise is in the class [Q]. *)
Definition raises_only {S A} (Q : exn -> Prop) (c : M S A) : Prop :=
  forall s e, fst (c s) = inl e -> Q e.

Definition keeps_self {A} (c : M World A) : Prop :=
  forall w, self (snd (c w)) = self w.

Definition keeps_fs {A} (c : M World A) : Prop :=
  forall w, fs (snd (c w)) = fs w.

(** A failed assertion of [c] leaves the files as they were. *)
Definition validates_first {A} (c : M World A) : Prop :=
  forall w msg, fst (c w) = inl (AssertionError msg) -> fs (snd (c w)) = fs w.

Definition not_assertion (e : exn) : Prop := forall msg, e <> AssertionError msg.

(** One or two of the three momentum components are given. *)
Definition incomplete_momentum (xmom ymom zmom : option string) : bool :=
  let given :=
    length (List.filter InternalCoupling.is_not_None [xmom; ymom; zmom]) in
  (given =? 1)%nat || (given =? 2)%nat.

(** An all-zero column for the rows of [d]. *)
Definition zero_column (d : DataFrame) (field : string) : string * list float :=
  (field, repeat 0%float (length (index d))).

(** [d'] is [d] followed by all-zero columns for some of the [fields] that
    [d] lacks. *)
Definition grows (fields : list string) (d d' : DataFrame) : Prop :=
  kind d' = kind d /\ name d' = name d /\ index d' = index d
  /\ exists added,
       columns d' = columns d ++ map (zero_column d) added
       /\ Forall (fun f => In f fields /\ Pandas.has_column f d = false) added.

(** All [c] does to the instance is to make its frame grow. *)
Definition only_grows {A} (fields : list string) (c : M World A) : Prop :=
  forall w,
    dpath (self (snd (c w))) = dpath (self w)
    /\ datefrom (self (snd (c w))) = datefrom (self w)
    /\ grows fields (df (self w)) (df (self (snd (c w)))).

(** The outcome of [c] and the instance it leaves do not depend on the
    files. *)
Definition outcome_by_self {A} (c : M World A) : Prop :=
  forall w1 w2,
    self w1 = self w2 ->
    fst (c w1) = fst (c w2) /\ self (snd (c w1)) = self (snd (c w2)).

(** The outcome of a file operation does not depend on the files. *)
Definition blind {A} (c : M FileSystem A) : Prop :=
  forall s1 s2, fst (c s1) = fst (c s2).

(** A call of one of the three exports. *)
Inductive export : Type :=
| BCs (fname fieldname : string) (fact : float)
| ICs (fname xmom ymom temp : string)
| TimeHeight (fname : string) (xmom ymom zmom temp : option string).

Definition call (e : export) : M World unit :=
  match e with
  | BCs fname fieldname fact => InternalCoupling.write_BCs fname fieldname fact
  | ICs fname xmom ymom temp => InternalCoupling.write_ICs fname xmom ymom temp
  | TimeHeight fname xmom ymom zmom temp =>
      InternalCoupling.write_timeheight fname xmom ymom zmom temp
  end.

(** The text [savetxt] writes for an array whose rows fit [fmt]. *)
Definition savetxt_text (X : ndarray) (fmt : list conversion)
    (header footer : string) : string :=
  (if String.eqb header "" then "" else header +:+ Numpy.newline)
  +:+ String.concat "" (map (Numpy.format_row fmt) (data X))
  +:+ (if String.eqb footer "" then "" else footer +:+ Numpy.newline).

(** A frame as the constructor leaves it: one cell per label in every column,
    [t_index] among them. *)
Definition bound_frame (d : DataFrame) : Prop :=
  well_formed d /\ Pandas.has_column "t_index" d = true.

(** A line of the boundary-condition file. *)
Definition BC_line (t value : float) : string :=
  "    (" +:+ Float64.format_g 6 t +:+ " " +:+ Float64.format_g 12 value
  +:+ ")" +:+ Numpy.newline.

(** A line of the initial-condition file. *)
Definition IC_line (z x y theta : float) : string :=
  "    (" +:+ Float64.format_g 6 z +:+ " " +:+ Float64.format_g 12 x
  +:+ " " +:+ Float64.format_g 12 y +:+ " " +:+ Float64.format_g 12 theta
  +:+ ")" +:+ Numpy.newline.

(** The boundary-condition file as the spec words it: one line per row, the
    rows taken in the order of their times. *)
Definition BC_text_in_time_order (d : DataFrame) (fieldname : string)
    (fact : float) : option string :=
  match Pandas.lookup_column "t_index" (columns d),
        Pandas.lookup_column fieldname (columns d) with
  | Some ts, Some vs =>
      let by_time :=
        Pandas.sort (fun r1 r2 : Z * (float * float) => fst r1 <? fst r2)
                    (combine (index d) (combine ts vs)) in
      Some (String.concat
              "" (map (fun r => BC_line (fst (snd r))
                                        (PrimFloat.mul fact (snd (snd r))))
                      by_time))
  | _, _ => None
  end.

(** A field of a frame as the initial-condition export reads it: the column
    when the frame has one, zeros otherwise. *)
Definition column_or_zeros (d : DataFrame) (field : string) : list float :=
  match Pandas.lookup_column field (columns d) with
  | Some v => v
  | None => repeat 0%float (length (index d))
  end.

(** The lines of the initial-condition file, one per height. *)
Fixpoint IC_lines (zs xs ys thetas : list float) : list string :=
  match zs, xs, ys, thetas with
  | z :: zs', x :: xs', y :: ys', theta :: thetas' =>
      IC_line z x y theta :: IC_lines zs' xs' ys' thetas'
  | _, _, _, _ => []
  end.

(** The rows of the bound frame at the start of the window. *)
Definition start_snapshot (w : World) : DataFrame :=
  Pandas.loc_mask (df (self w))
                  (Pandas.index_eq (df (self w)) (datefrom (self w))).





(** The distinct labels and the distinct heights of a frame, ascending. *)
Definition distinct_labels (d : DataFrame) : list Z :=
  Pandas.sort Z.ltb (Pandas.unique Z.eqb (index d)).

Definition distinct_heights (heights : list float) : list float :=
  Pandas.sort PrimFloat.ltb (Pandas.unique Float64.same_key heights).

(** The dense table of a field: one row per distinct label, one cell per
    distinct height; a cell the frame has no row for is NaN. *)
Definition dense_table (d : DataFrame) (heights values : list float)
  : list (list float) :=
  map (fun l =>
         map (Pandas.pivot_cell (index d) heights values l)
             (distinct_heights heights))
      (distinct_labels d).


(** ** Vocabulary of the further properties *)


(** The file an export writes: [os.path.join(self.dpath, fname)]. *)
Definition output_path (e : export) (w : World) : string :=
  Os.path_join (dpath (self w))
               match e with
               | BCs fname _ _ => fname
               | ICs fname _ _ _ => fname
               | TimeHeight fname _ _ _ _ => fname
               end.

(** A computation run in a folder [dp] that keeps the folder of the
    instance, changes no directory and no file other than [p]. *)
Definition touches_only {A} (dp p : string) (c : M World A) : Prop :=
  forall w,
    dpath (self w) = dp ->
    dpath (self (snd (c w))) = dp
    /\ dirs (fs (snd (c w))) = dirs (fs w)
    /\ forall q, q <> p -> files (fs (snd (c w))) !! q = files (fs w) !! q.

(** The instance with another frame. *)
Definition with_df (me : Writer) (d : DataFrame) : Writer :=
  {| dpath := dpath me; df := d; datefrom := datefrom me |}.

(** No row of the frame has the label [l] at the height [z]. *)
Definition no_row_at (d : DataFrame) (heights : list float) (l : Z) (z : float)
  : Prop :=
  forall l' h,
    In (l', h) (combine (index d) heights) ->
    (l' =? l) && Float64.same_key h z = false.

(** Two instants of a temperature profile; the second one lacks the upper
    level. *)
Definition gappy_profiles : DataFrame :=
  {| kind := TimedeltaIndex; name := Some "t";
     index := [sec 0; sec 0; sec 600];
     columns := [("height", [0; 10; 0]%float);
                 ("theta", [300; 301; 302]%float)] |}.

(** The world after [InternalCoupling("out", gappy_profiles)]. *)
Definition gappy_world : World :=
  {| self := {| dpath := "out";
                df := bound_copy gappy_profiles None (sec 0) (sec 600);
                datefrom := sec 0 |};
     fs := {| dirs := {["out"]}; files := ∅ |} |}.



(** * Properties *)

(** ** The conversions, on examples *)

Example format_g_examples :
  map (Float64.format_g 6)
      [0; -1; 0.1; 1234567; 0.00001; 300; 0.0001; 1 / 3; 999999.5; 2.5; 1e100;
       0 / 0; -0; 1 / 0]%float
  = ["0"; "-1"; "0.1"; "1.23457e+06"; "1e-05"; "300"; "0.0001"; "0.333333";
     "1e+06"; "2.5"; "1e+100"; "nan"; "-0"; "inf"].
Proof. vm_compute. reflexivity. Qed.

Example format_12g_examples :
  map (Float64.format_g 12) [123456789012345; 0.1; 299.5; 1 / 3; -2]%float
  = ["1.23456789012e+14"; "0.1"; "299.5"; "0.333333333333"; "-2"].
Proof. vm_compute. reflexivity. Qed.

Example of_int64_examples :
  map Float64.of_int64 [0; 1500000000; -3] = [0; 1500000000; -3]%float.
Proof. vm_compute. reflexivity. Qed.

(** ** Lists, masks and rows *)

Section ListFacts.
Context {A : Type}.

Lemma take_mask_map (p : A -> bool) (l : list A) :
  Pandas.take_mask (map p l) l = List.filter p l.
Proof.
  induction l as [|x l IH]; simpl; [reflexivity|].
  rewrite IH. reflexivity.
Qed.

Lemma take_mask_nil (mask : list bool) : Pandas.take_mask mask (@nil A) = [].
Proof. destruct mask; reflexivity. Qed.

Lemma unique_eq_nil (eq : A -> A -> bool) (l : list A) :
  Pandas.unique eq l = [] <-> l = [].
Proof. destruct l; simpl; split; congruence. Qed.

Lemma length_unique_pos (eq : A -> A -> bool) (l : list A) :
  (0 <? length (Pandas.unique eq l))%nat = negb (match l with [] => true | _ => false end).
Proof. destruct l; reflexivity. Qed.
End ListFacts.

Lemma mask_and_window (d : DataFrame) (a b : Z) :
  Pandas.mask_and (Pandas.index_ge d a) (Pandas.index_le d b)
  = map (in_window a b) (index d).
Proof.
  unfold Pandas.mask_and, Pandas.index_ge, Pandas.index_le.
  induction (index d) as [|l ls IH]; simpl; [reflexivity|].
  f_equal. exact IH.
Qed.

Lemma rows_take_mask (p : Z -> bool) (labels : list Z) :
  forall cols,
    rows (Pandas.take_mask (map p labels) labels)
         (map (fun '(c, v) => (c, Pandas.take_mask (map p labels) v)) cols)
    = List.filter (fun r => p (fst r)) (rows labels cols).
Proof.
  induction labels as [|l ls IH]; intros cols; [reflexivity|].
  cbn [map rows List.filter fst Pandas.take_mask].
  destruct (p l) eqn:Hp; cbn [rows].
  - f_equal.
    + f_equal. rewrite map_map. apply map_ext.
      intros [c [|x v]]; reflexivity.
    + rewrite <- IH. f_equal. rewrite !map_map. apply map_ext.
      intros [c [|x v]]; cbn [tl]; [rewrite take_mask_nil|]; reflexivity.
  - rewrite <- IH. f_equal. rewrite !map_map. apply map_ext.
    intros [c [|x v]]; cbn [tl]; [rewrite take_mask_nil|]; reflexivity.
Qed.

Lemma filter_rows_nil (p : Z -> bool) (labels : list Z) :
  forall cols,
    List.filter (fun r => p (fst r)) (rows labels cols) = []
    <-> List.filter p labels = [].
Proof.
  induction labels as [|l ls IH]; intros cols; cbn [rows List.filter fst];
    [tauto|].
  destruct (p l); [split; discriminate|apply IH].
Qed.

Lemma float_columns_floats (cols : list (string * list float)) :
  Pandas.float_columns (map (fun '(c, v) => (c, Floats v)) cols) = Some cols.
Proof.
  induction cols as [|[c v] cols IH]; simpl; [reflexivity|].
  rewrite IH. reflexivity.
Qed.

Lemma assign_column_floats (c : string) (x : list float) (cols : list (string * list float)) :
  Pandas.assign_column c (Floats x) (map (fun '(c, v) => (c, Floats v)) cols)
  = map (fun '(c, v) => (c, Floats v)) (Pandas.assign_column c x cols).
Proof.
  induction cols as [|[c' v] cols IH]; simpl; [reflexivity|].
  destruct (String.eqb c c'); simpl; [reflexivity|].
  rewrite IH. reflexivity.
Qed.

Lemma of_int64_one_second : Float64.of_int64 Pandas.one_second = 1e9%float.
Proof. reflexivity. Qed.

Lemma has_column_loc_mask (c : string) (d : DataFrame) (mask : list bool) :
  Pandas.has_column c (Pandas.loc_mask d mask) = Pandas.has_column c d.
Proof.
  unfold Pandas.has_column, Pandas.loc_mask. cbn [columns].
  rewrite map_map. f_equal. apply map_ext. intros [c' v]. reflexivity.
Qed.

Lemma time_base_loc_mask (dateref : option Z) (d : DataFrame) (mask : list bool) :
  time_base dateref (Pandas.loc_mask d mask) = time_base dateref d.
Proof.
  unfold time_base. rewrite has_column_loc_mask. reflexivity.
Qed.

Lemma lookup_column_absent {V} (c : string) (cols : list (string * V)) :
  existsb (String.eqb c) (map fst cols) = false ->
  Pandas.lookup_column c cols = None.
Proof.
  induction cols as [|[c' v] cols IH]; simpl; [reflexivity|].
  destruct (String.eqb c c'); simpl; [discriminate|exact IH].
Qed.

Lemma lookup_column_floats (c : string) (cols : list (string * list float)) :
  Pandas.lookup_column c (map (fun '(c, v) => (c, Floats v)) cols)
  = option_map Floats (Pandas.lookup_column c cols).
Proof.
  induction cols as [|[c' v] cols IH]; simpl; [reflexivity|].
  destruct (String.eqb c c'); [reflexivity|exact IH].
Qed.

Ltac raises := eexists; split; [reflexivity|discriminate].

Lemma reset_branch_fails (nm : string) (k : index_kind) (idx : list Z)
    (cols : list (string * list float)) (r : Z) (s : FileSystem) :
  String.eqb "datetime" nm && match k with DatetimeIndex => true | _ => false end = false ->
  exists e,
    (datetime <- lift (Pandas.range_getitem "datetime"
                         ((nm, Times k idx) :: map (fun '(c, v) => (c, Floats v)) cols)) ;;
     deltas <- lift (Pandas.sub_timestamp datetime r) ;;
     lift (Pandas.set_index "datetime"
             (Pandas.assign_column "t_index"
                (Floats (Pandas.div_timedelta deltas Pandas.one_second))
                ((nm, Times k idx) :: map (fun '(c, v) => (c, Floats v)) cols))))%py s
    = (inl e, s) /\ forall msg, e <> AssertionError msg.
Proof.
  intros H. unfold bind, lift, Pandas.range_getitem.
  cbn [Pandas.lookup_column].
  destruct (String.eqb "datetime" nm).
  - destruct k; [discriminate|]. cbn. raises.
  - rewrite lookup_column_floats.
    destruct (Pandas.lookup_column "datetime" cols); cbn; raises.
Qed.

Lemma derive_t_index_cases (dateref : option Z) (bound : DataFrame) (s : FileSystem) :
  if time_base dateref bound
  then derive_t_index dateref bound s
       = (inr (Pandas.setitem "t_index" (map (elapsed dateref) (index bound)) bound), s)
  else exists e, derive_t_index dateref bound s = (inl e, s)
                 /\ forall msg, e <> AssertionError msg.
Proof.
  unfold time_base, derive_t_index.
  destruct dateref as [r|].
  - destruct bound as [k n idx cols]. cbn [kind name index columns].
    unfold Pandas.reset_index. cbn [kind name index columns]. cbn zeta.
    set (B := {| kind := k; name := n; index := idx; columns := cols |}).
    set (nm := match n with Some n0 => n0 | None => _ end).
    unfold bind at 1, lift at 1.
    destruct (Pandas.has_column nm B) eqn:Hnm.
    { destruct k, n as [n|]; try raises.
      subst nm. destruct (String.eqb n "datetime") eqn:Hn; [|raises].
      apply String.eqb_eq in Hn. subst n. rewrite Hnm. raises. }
    destruct (String.eqb "datetime" nm
              && match k with DatetimeIndex => true | _ => false end) eqn:Hok.
    + apply andb_prop in Hok. destruct Hok as [Hn Hk].
      destruct k; [|discriminate]. apply String.eqb_eq in Hn.
      destruct n as [n|].
      * subst nm. subst n. rewrite String.eqb_refl.
        subst B. rewrite Hnm. cbn [andb negb].
        unfold bind, lift, Pandas.range_getitem, Pandas.sub_timestamp, Pandas.set_index.
        cbn. rewrite assign_column_floats, float_columns_floats.
        unfold Pandas.setitem, Pandas.div_timedelta. cbn [kind name index columns].
        rewrite map_map, of_int64_one_second. reflexivity.
      * exfalso. subst nm. destruct (Pandas.has_column "index" B); discriminate.
    + pose proof (reset_branch_fails nm k idx cols r s Hok) as Hf.
      destruct k; [|destruct n; exact Hf].
      destruct n as [n|]; [|exact Hf].
      subst nm. rewrite andb_true_r in Hok.
      rewrite (String.eqb_sym n), Hok. exact Hf.
  - unfold Pandas.total_seconds, bind, lift, ret.
    destruct (kind bound); [raises|]. reflexivity.
Qed.

Section MonadLaws.
Context {S A B : Type}.

Lemma bind_ret (a : A) (k : A -> M S B) : bind (ret a) k = k a.
Proof. reflexivity. Qed.

Lemma bind_raise (e : exn) (k : A -> M S B) : bind (raise e) k = raise e.
Proof. reflexivity. Qed.

Lemma bind_lift_inr (a : A) (k : A -> M S B) : bind (lift (inr a)) k = k a.
Proof. reflexivity. Qed.

Lemma bind_lift_inl (e : exn) (k : A -> M S B) : bind (lift (inl e)) k = raise e.
Proof. reflexivity. Qed.

Lemma bind_assert_true (msg : option string) (k : unit -> M S B) :
  bind (assert true msg) k = k tt.
Proof. reflexivity. Qed.

Lemma bind_assert_false (msg : option string) (k : unit -> M S B) :
  bind (assert false msg) k = raise (AssertionError msg).
Proof. reflexivity. Qed.
End MonadLaws.

Lemma init_cases (dpath : string) (d : DataFrame) (dateref datefrom dateto : option Z)
    (s : FileSystem) :
  let run := fst (InternalCoupling.init dpath d dateref datefrom dateto s) in
  match window d datefrom dateto with
  | None => run = inl IndexError
  | Some (a, b) =>
      match List.filter (in_window a b) (index d) with
      | [] => run = inl EmptyWindowError
      | _ :: _ =>
          if time_base dateref d
          then run = inr {| dpath := dpath; df := bound_copy d dateref a b;
                            datefrom := a |}
          else exists e, run = inl e /\ forall msg, e <> AssertionError msg
      end
  end.
Proof.
  unfold InternalCoupling.init, window, Pandas.index_first, Pandas.index_last,
    Pandas.copy.
  set (s' := snd ((is_dir <- Os.isdir dpath ;;
                   (if negb is_dir then Os.mkdir dpath else ret tt))%py s)).
  assert (Hs : forall A (k : M FileSystem A),
             (is_dir <- Os.isdir dpath ;;
              (if negb is_dir then Os.mkdir dpath else ret tt) ;; k)%py s
             = k s').
  { intros A k. subst s'. unfold bind, Os.isdir, Os.mkdir, modify, ret.
    destruct (negb _); reflexivity. }
  rewrite Hs. clear Hs. generalize s'. clear s s'. intros s.
  destruct datefrom as [a|]; [|destruct (head (index d)) as [a|]];
    rewrite ?bind_ret, ?bind_lift_inr, ?bind_lift_inl; try reflexivity.
  all: destruct dateto as [b|]; [|destruct (last (index d)) as [b|]];
    rewrite ?bind_ret, ?bind_lift_inr, ?bind_lift_inl; try reflexivity.
  all: rewrite mask_and_window.
  all: set (bound := Pandas.loc_mask d (map (in_window a b) (index d))).
  all: rewrite length_unique_pos.
  all: assert (Hidx : index bound = List.filter (in_window a b) (index d))
    by apply take_mask_map.
  all: rewrite Hidx.
  all: destruct (List.filter (in_window a b) (index d)) as [|l0 ls] eqn:Hsel;
    cbn [negb]; [reflexivity|].
  all: rewrite bind_assert_true.
  all: pose proof (derive_t_index_cases dateref bound s) as Hd.
  all: assert (Htb : time_base dateref bound = time_base dateref d)
    by apply time_base_loc_mask.
  all: rewrite Htb in Hd.
  all: unfold derive_t_index in Hd.
  all: destruct (time_base dateref d); unfold bind at 1;
    [|destruct Hd as (e & He & Hne); rewrite He; cbn [fst]; exists e; split; auto].
  all: rewrite Hd; cbn [fst]; unfold bound_copy.
  all: fold bound; rewrite Hidx; reflexivity.
Qed.

Lemma filter_assign_t_index (x : list float) (cols : list (string * list float)) :
  List.filter (fun cv => negb (is_t_index cv)) (Pandas.assign_column "t_index" x cols)
  = List.filter (fun cv => negb (is_t_index cv)) cols.
Proof.
  unfold is_t_index.
  induction cols as [|[c v] cols IH]; [reflexivity|].
  cbn [Pandas.assign_column]. destruct (String.eqb "t_index" c) eqn:Hc.
  - cbn [List.filter fst]. rewrite String.eqb_refl, Hc. reflexivity.
  - cbn [List.filter fst]. rewrite IH. reflexivity.
Qed.

Lemma filter_names_map (p : string -> bool) (f : list float -> list float)
    (cols : list (string * list float)) :
  List.filter (fun cv => p (fst cv)) (map (fun '(c, v) => (c, f v)) cols)
  = map (fun '(c, v) => (c, f v)) (List.filter (fun cv => p (fst cv)) cols).
Proof.
  induction cols as [|[c v] cols IH]; [reflexivity|].
  cbn [map List.filter fst]. destruct (p c); cbn [map]; rewrite IH; reflexivity.
Qed.

Lemma data_rows_bound_copy (d : DataFrame) (dateref : option Z) (a b : Z) :
  data_rows (bound_copy d dateref a b)
  = List.filter (fun r => in_window a b (fst r)) (data_rows d).
Proof.
  unfold data_rows, bound_copy, Pandas.setitem, Pandas.loc_mask.
  cbn [index columns].
  rewrite filter_assign_t_index.
  rewrite (filter_names_map (fun c => negb (String.eqb "t_index" c))).
  apply rows_take_mask.
Qed.

Lemma lookup_assign_column {V} (c : string) (x : V) (cols : list (string * V)) :
  Pandas.lookup_column c (Pandas.assign_column c x cols) = Some x.
Proof.
  induction cols as [|[c' v] cols IH]; cbn [Pandas.assign_column Pandas.lookup_column].
  - rewrite String.eqb_refl. reflexivity.
  - destruct (String.eqb c c') eqn:Hc; cbn [Pandas.lookup_column];
      [rewrite String.eqb_refl|rewrite Hc]; auto.
Qed.

(** ** Rules for the exceptions a computation can raise *)

Section RaisesOnly.
Context {S : Type} (Q : exn -> Prop).

Lemma raises_only_ret {A} (a : A) : raises_only Q (@ret S A a).
Proof. intros s e H. discriminate. Qed.

Lemma raises_only_raise {A} (e : exn) : Q e -> raises_only Q (@raise S A e).
Proof. intros HQ s e' H. injection H as <-. exact HQ. Qed.

Lemma raises_only_lift {A} (r : exn + A) :
  (forall e, r = inl e -> Q e) -> raises_only Q (@lift S A r).
Proof. intros HQ s e H. apply HQ. exact H. Qed.

Lemma raises_only_modify (f : S -> S) : raises_only Q (modify f).
Proof. intros s e H. discriminate. Qed.

Lemma raises_only_assert (cond : bool) (msg : option string) :
  (cond = false -> Q (AssertionError msg)) -> raises_only Q (@assert S cond msg).
Proof.
  intros HQ s e H. destruct cond; [discriminate|].
  injection H as <-. auto.
Qed.

Lemma raises_only_bind {A B} (c : M S A) (k : A -> M S B) :
  raises_only Q c -> (forall a, raises_only Q (k a)) -> raises_only Q (bind c k).
Proof.
  intros Hc Hk s e. unfold bind. specialize (Hc s).
  destruct (c s) as [[e'|a] s'] eqn:Hcs; cbn [fst] in *.
  - intros H. injection H as <-. auto.
  - apply Hk.
Qed.

Lemma raises_only_for_each {A} (l : list A) (body : A -> M S unit) :
  (forall x, raises_only Q (body x)) -> raises_only Q (for_each l body).
Proof.
  intros Hb. induction l as [|x l IH]; cbn [for_each].
  - apply raises_only_ret.
  - apply raises_only_bind; auto.
Qed.
End RaisesOnly.

Lemma raises_only_on_fs {A} (Q : exn -> Prop) (c : M FileSystem A) :
  raises_only Q c -> raises_only Q (on_fs c).
Proof.
  intros Hc w e. unfold on_fs. specialize (Hc (fs w)).
  destruct (c (fs w)) as [r f]. cbn [fst] in *. auto.
Qed.

Lemma raises_only_get_self (Q : exn -> Prop) : raises_only Q get_self.
Proof. intros w e H. discriminate. Qed.

Lemma raises_only_weaken {S A} (Q Q' : exn -> Prop) (c : M S A) :
  (forall e, Q e -> Q' e) -> raises_only Q c -> raises_only Q' c.
Proof. intros HQ Hc s e H. eauto. Qed.

(** ** Rules for the instance and the files *)

Section Frames.
Context {A B : Type}.

Lemma keeps_self_ret (a : A) : keeps_self (ret a).
Proof. intros w. reflexivity. Qed.

Lemma keeps_self_raise (e : exn) : keeps_self (@raise World A e).
Proof. intros w. reflexivity. Qed.

Lemma keeps_self_lift (r : exn + A) : keeps_self (lift r).
Proof. intros w. reflexivity. Qed.

Lemma keeps_self_on_fs (c : M FileSystem A) : keeps_self (on_fs c).
Proof. intros w. unfold on_fs. destruct (c (fs w)). reflexivity. Qed.

Lemma keeps_self_bind (c : M World A) (k : A -> M World B) :
  keeps_self c -> (forall a, keeps_self (k a)) -> keeps_self (bind c k).
Proof.
  intros Hc Hk w. unfold bind. specialize (Hc w).
  destruct (c w) as [[e|a] w'] eqn:Hcw; cbn [snd] in *; [exact Hc|].
  rewrite Hk. exact Hc.
Qed.

Lemma keeps_fs_ret (a : A) : keeps_fs (ret a).
Proof. intros w. reflexivity. Qed.

Lemma keeps_fs_raise (e : exn) : keeps_fs (@raise World A e).
Proof. intros w. reflexivity. Qed.

Lemma keeps_fs_lift (r : exn + A) : keeps_fs (lift r).
Proof. intros w. reflexivity. Qed.

Lemma keeps_fs_bind (c : M World A) (k : A -> M World B) :
  keeps_fs c -> (forall a, keeps_fs (k a)) -> keeps_fs (bind c k).
Proof.
  intros Hc Hk w. unfold bind. specialize (Hc w).
  destruct (c w) as [[e|a] w'] eqn:Hcw; cbn [snd] in *; [exact Hc|].
  rewrite Hk. exact Hc.
Qed.

Lemma validates_first_bind (c : M World A) (k : A -> M World B) :
  keeps_fs c -> (forall a, validates_first (k a)) -> validates_first (bind c k).
Proof.
  intros Hc Hk w msg. unfold bind. specialize (Hc w).
  destruct (c w) as [[e|a] w'] eqn:Hcw; cbn [fst snd] in *; [intros _; exact Hc|].
  intros H. rewrite (Hk a w' msg H). exact Hc.
Qed.

Lemma validates_first_silent (c : M World A) :
  raises_only not_assertion c -> validates_first c.
Proof. intros Hc w msg H. exfalso. exact (Hc w _ H msg eq_refl). Qed.
End Frames.

Lemma keeps_self_get_self : keeps_self get_self.
Proof. intros w. reflexivity. Qed.

Lemma keeps_fs_get_self : keeps_fs get_self.
Proof. intros w. reflexivity. Qed.

Lemma keeps_fs_set_df (d : DataFrame) : keeps_fs (set_df d).
Proof. intros w. reflexivity. Qed.

Lemma keeps_self_assert (cond : bool) (msg : option string) :
  keeps_self (assert cond msg).
Proof. intros w. destruct cond; reflexivity. Qed.

Lemma keeps_fs_assert (cond : bool) (msg : option string) :
  keeps_fs (assert cond msg).
Proof. intros w. destruct cond; reflexivity. Qed.

Lemma keeps_self_for_each {A} (l : list A) (body : A -> M World unit) :
  (forall x, keeps_self (body x)) -> keeps_self (for_each l body).
Proof.
  intros Hb. induction l as [|x l IH]; cbn [for_each].
  - apply keeps_self_ret.
  - apply keeps_self_bind; auto.
Qed.

Lemma keeps_fs_for_each {A} (l : list A) (body : A -> M World unit) :
  (forall x, keeps_fs (body x)) -> keeps_fs (for_each l body).
Proof.
  intros Hb. induction l as [|x l IH]; cbn [for_each].
  - apply keeps_fs_ret.
  - apply keeps_fs_bind; auto.
Qed.

Create HintDb frames.

#[local] Hint Resolve keeps_self_ret keeps_self_raise keeps_self_lift
  keeps_self_on_fs keeps_self_get_self keeps_self_assert
  keeps_fs_ret keeps_fs_raise keeps_fs_lift keeps_fs_get_self keeps_fs_set_df
  keeps_fs_assert : frames.

(** Walks down a computation, one rule per construct. *)
Ltac frame_step :=
  match goal with
  | |- keeps_self (bind _ _) => apply keeps_self_bind; [|intros ?]
  | |- keeps_self (for_each _ _) => apply keeps_self_for_each; intros ?
  | |- keeps_fs (bind _ _) => apply keeps_fs_bind; [|intros ?]
  | |- keeps_fs (for_each _ _) => apply keeps_fs_for_each; intros ?
  | |- raises_only _ (bind _ _) => apply raises_only_bind; [|intros ?]
  | |- raises_only _ (for_each _ _) => apply raises_only_for_each; intros ?
  | |- raises_only _ (on_fs _) => apply raises_only_on_fs
  | |- raises_only _ (ret _) => apply raises_only_ret
  | |- raises_only not_assertion (raise _) =>
      apply raises_only_raise; intros ?; discriminate
  | |- raises_only _ get_self => apply raises_only_get_self
  | |- raises_only _ (modify _) => apply raises_only_modify
  | |- _ (match ?x with _ => _ end) => destruct x
  | |- _ => solve [auto with frames]
  end.

(** A library call inside [lift]: its errors are no assertions. *)
Ltac lift_step :=
  match goal with
  | |- raises_only not_assertion (lift _) =>
      apply raises_only_lift; intros ? ?; eauto with pure_errors
  | HQ : forall e, not_assertion e -> _ |- raises_only _ (lift _) =>
      apply raises_only_lift; intros ? ?; apply HQ; eauto with pure_errors
  end.

(** ** The library calls never raise an [AssertionError] *)

Ltac case_matches :=
  repeat match goal with
         | |- context [match ?x with _ => _ end] => destruct x
         end.

Ltac not_an_assertion :=
  let H := fresh in
  let msg := fresh in
  intros H msg; inversion H; subst; discriminate.

Lemma getattr_error (c : string) (d : DataFrame) (e : exn) :
  Pandas.getattr c d = inl e -> not_assertion e.
Proof. unfold Pandas.getattr. case_matches; not_an_assertion. Qed.

Lemma getitem_error (c : string) (d : DataFrame) (e : exn) :
  Pandas.getitem c d = inl e -> not_assertion e.
Proof. unfold Pandas.getitem. case_matches; not_an_assertion. Qed.

Lemma loc_label_error (d : DataFrame) (label : Z) (e : exn) :
  Pandas.loc_label d label = inl e -> not_assertion e.
Proof. unfold Pandas.loc_label. cbn zeta. case_matches; not_an_assertion. Qed.

Lemma pivot_error (d : DataFrame) (fields : list string) (e : exn) :
  Pandas.pivot d fields = inl e -> not_assertion e.
Proof. unfold Pandas.pivot. case_matches; not_an_assertion. Qed.

Lemma pivot_values_error (field : option string) (pv : Pandas.Pivot) (e : exn) :
  pivot_values field pv = inl e -> not_assertion e.
Proof. unfold pivot_values. case_matches; not_an_assertion. Qed.

Lemma reshape_error (v : list float) (n : nat) (e : exn) :
  reshape v n = inl e -> not_assertion e.
Proof. unfold reshape. case_matches; not_an_assertion. Qed.

Lemma concatenate_error (others : list ndarray) :
  forall (first : ndarray) (e : exn),
    Numpy.concatenate first others = inl e -> not_assertion e.
Proof.
  induction others as [|b others IH]; intros first e; cbn [Numpy.concatenate].
  - not_an_assertion.
  - unfold Numpy.hstack. destruct (_ =? _)%nat; [apply IH|not_an_assertion].
Qed.

Create HintDb pure_errors.

#[local] Hint Resolve getattr_error getitem_error loc_label_error pivot_error
  pivot_values_error reshape_error concatenate_error : pure_errors.

Lemma write_silent (fid text : string) :
  raises_only not_assertion (Os.write fid text).
Proof. apply raises_only_modify. Qed.

Lemma open_w_silent (path : string) : raises_only not_assertion (Os.open_w path).
Proof. intros s e H. discriminate. Qed.

Lemma savetxt_silent (fid : string) (X : ndarray) (fmt : list conversion)
    (header footer : string) :
  raises_only not_assertion (savetxt fid X fmt header footer).
Proof.
  unfold savetxt. destruct (negb _).
  - apply raises_only_raise. intros msg. discriminate.
  - repeat first [ apply raises_only_bind; [|intros ?]
                 | apply raises_only_for_each; intros ?
                 | apply raises_only_ret
                 | apply write_silent
                 | match goal with |- _ (if ?b then _ else _) => destruct b end ].
Qed.

#[local] Hint Resolve write_silent open_w_silent savetxt_silent : frames.

(** ** The exports and the instance *)

Lemma write_BCs_keeps_self (fname fieldname : string) (fact : float) :
  keeps_self (InternalCoupling.write_BCs fname fieldname fact).
Proof. unfold InternalCoupling.write_BCs. repeat frame_step. Qed.

Lemma write_ICs_keeps_self (fname xmom ymom temp : string) :
  keeps_self (InternalCoupling.write_ICs fname xmom ymom temp).
Proof. unfold InternalCoupling.write_ICs. repeat frame_step. Qed.

Lemma write_table_silent (fid title : string) (field : option string)
    (ts : list float) (nt nz : nat) (pv : Pandas.Pivot) :
  raises_only not_assertion (InternalCoupling.write_table fid title field ts nt nz pv).
Proof.
  unfold InternalCoupling.write_table. cbn zeta.
  repeat first [lift_step | frame_step].
Qed.

Lemma write_heights_silent (fid title : string) (zs : list float) :
  raises_only not_assertion (InternalCoupling.write_heights fid title zs).
Proof.
  unfold InternalCoupling.write_heights.
  repeat first [lift_step | frame_step].
Qed.

Lemma zero_fill_self_keeps_fs (field : option string) :
  keeps_fs (InternalCoupling.zero_fill_self field).
Proof. unfold InternalCoupling.zero_fill_self. repeat frame_step. Qed.

Lemma zero_fill_self_silent (field : option string) :
  raises_only not_assertion (InternalCoupling.zero_fill_self field).
Proof.
  unfold InternalCoupling.zero_fill_self, set_df. repeat frame_step.
Qed.

#[local] Hint Resolve write_table_silent write_heights_silent
  zero_fill_self_keeps_fs zero_fill_self_silent : frames.

(** Splits an export at the point where it opens its file: before, the files
    are not touched; after, nothing is asserted. *)
Ltac validate :=
  repeat first
    [ apply validates_first_bind; [solve [repeat frame_step]|intros ?]
    | match goal with
      | |- validates_first (match ?x with _ => _ end) => destruct x
      end ];
  try (apply validates_first_silent; repeat first [lift_step | frame_step]).

Lemma write_BCs_validates_first (fname fieldname : string) (fact : float) :
  validates_first (InternalCoupling.write_BCs fname fieldname fact).
Proof. unfold InternalCoupling.write_BCs. cbn zeta. validate. Qed.

Lemma write_ICs_validates_first (fname xmom ymom temp : string) :
  validates_first (InternalCoupling.write_ICs fname xmom ymom temp).
Proof. unfold InternalCoupling.write_ICs. cbn zeta. validate. Qed.

Lemma write_timeheight_validates_first (fname : string)
    (xmom ymom zmom temp : option string) :
  validates_first (InternalCoupling.write_timeheight fname xmom ymom zmom temp).
Proof. unfold InternalCoupling.write_timeheight. cbn zeta. validate. Qed.

(** ** The momentum components come together *)

Lemma write_timeheight_incomplete (fname : string)
    (xmom ymom zmom temp : option string) (w : World) :
  incomplete_momentum xmom ymom zmom = true ->
  InternalCoupling.write_timeheight fname xmom ymom zmom temp w
  = (inl IncompleteMomentumSpecError, w).
Proof.
  destruct xmom, ymom, zmom; intros H; try discriminate H; reflexivity.
Qed.

Lemma write_timeheight_complete (fname : string)
    (xmom ymom zmom temp : option string) :
  incomplete_momentum xmom ymom zmom = false ->
  raises_only (fun e => e <> IncompleteMomentumSpecError)
              (InternalCoupling.write_timeheight fname xmom ymom zmom temp).
Proof.
  assert (HQ : forall e, not_assertion e -> e <> IncompleteMomentumSpecError)
    by (intros e He; apply He).
  intros H. unfold InternalCoupling.write_timeheight.
  destruct xmom, ymom, zmom; try discriminate H; clear H;
    cbn [map InternalCoupling.is_not_None existsb forallb id orb andb];
    cbn zeta; rewrite ?bind_assert_true, ?bind_ret.
  all: repeat first
         [ lift_step
         | apply raises_only_assert; intros _; discriminate
         | apply raises_only_on_fs;
           apply (raises_only_weaken _ _ _ HQ); solve [auto with frames]
         | apply (raises_only_weaken _ _ _ HQ); solve [auto with frames]
         | frame_step ].
Qed.

(** ** The time-height export only adds zero columns *)

Lemma grows_refl (fields : list string) (d : DataFrame) : grows fields d d.
Proof.
  repeat split. exists []. cbn [map]. rewrite app_nil_r. split; constructor.
Qed.

Lemma has_column_app (c : string) (d d' : DataFrame) (more : list (string * list float)) :
  columns d' = columns d ++ more ->
  Pandas.has_column c d' = false -> Pandas.has_column c d = false.
Proof.
  unfold Pandas.has_column. intros ->. rewrite map_app, existsb_app.
  intros H. apply orb_false_elim in H. tauto.
Qed.

Lemma grows_trans (fields : list string) (d d' d'' : DataFrame) :
  grows fields d d' -> grows fields d' d'' -> grows fields d d''.
Proof.
  intros (Hk & Hn & Hi & added & Hc & Ha) (Hk' & Hn' & Hi' & added' & Hc' & Ha').
  repeat split; try congruence.
  exists (added ++ added'). split.
  - rewrite Hc', Hc, map_app, <- app_assoc. do 2 f_equal.
    apply map_ext. intros f. unfold zero_column. rewrite Hi. reflexivity.
  - apply Forall_app. split; [exact Ha|].
    eapply Forall_impl; [exact Ha'|]. cbn beta. intros f [Hin Hf].
    split; [exact Hin|]. eapply has_column_app; eauto.
Qed.

Lemma assign_column_absent {V} (c : string) (v : V) (cols : list (string * V)) :
  existsb (String.eqb c) (map fst cols) = false ->
  Pandas.assign_column c v cols = cols ++ [(c, v)].
Proof.
  induction cols as [|[c' v'] cols IH]; cbn [map fst existsb Pandas.assign_column];
    [reflexivity|].
  destruct (String.eqb c c'); cbn [orb]; [discriminate|].
  intros H. rewrite (IH H). reflexivity.
Qed.

Section OnlyGrows.
Context (fields : list string).

Lemma only_grows_keeps_self {A} (c : M World A) :
  keeps_self c -> only_grows fields c.
Proof. intros Hc w. rewrite Hc. split; [|split]; auto using grows_refl. Qed.

Lemma only_grows_bind {A B} (c : M World A) (k : A -> M World B) :
  only_grows fields c -> (forall a, only_grows fields (k a)) ->
  only_grows fields (bind c k).
Proof.
  intros Hc Hk w. unfold bind. specialize (Hc w).
  destruct (c w) as [[e|a] w'] eqn:Hcw; cbn [snd] in *; [exact Hc|].
  destruct Hc as (Hd & Hf & Hg). destruct (Hk a w') as (Hd' & Hf' & Hg').
  split; [congruence|split; [congruence|eapply grows_trans; eauto]].
Qed.

Lemma only_grows_for_each {A} (l : list A) (body : A -> M World unit) :
  (forall x, In x l -> only_grows fields (body x)) ->
  only_grows fields (for_each l body).
Proof.
  induction l as [|x l IH]; intros Hb; cbn [for_each].
  - apply only_grows_keeps_self, keeps_self_ret.
  - apply only_grows_bind; [apply Hb; left; reflexivity|].
    intros _. apply IH. intros y Hy. apply Hb. right. exact Hy.
Qed.

Lemma zero_fill_self_only_grows (field : option string) :
  (forall f, field = Some f -> In f fields) ->
  only_grows fields (InternalCoupling.zero_fill_self field).
Proof.
  intros Hin w. unfold InternalCoupling.zero_fill_self, bind, get_self.
  destruct field as [f|]; [|split; [|split]; auto using grows_refl].
  destruct (Pandas.has_column f (df (self w))) eqn:Hf; cbn [negb];
    [split; [|split]; auto using grows_refl|].
  cbn. do 5 (split; [reflexivity|]). exists [f]. split.
  - apply assign_column_absent. exact Hf.
  - constructor; [|constructor]. split; [apply Hin; reflexivity|exact Hf].
Qed.
End OnlyGrows.

Lemma write_table_keeps_self (fid title : string) (field : option string)
    (ts : list float) (nt nz : nat) (pv : Pandas.Pivot) :
  keeps_self (InternalCoupling.write_table fid title field ts nt nz pv).
Proof. unfold InternalCoupling.write_table. cbn zeta. repeat frame_step. Qed.

Lemma write_heights_keeps_self (fid title : string) (zs : list float) :
  keeps_self (InternalCoupling.write_heights fid title zs).
Proof. unfold InternalCoupling.write_heights. repeat frame_step. Qed.

#[local] Hint Resolve write_table_keeps_self write_heights_keeps_self : frames.

Lemma write_timeheight_only_grows (fname : string)
    (xmom ymom zmom temp : option string) :
  only_grows (omap id [xmom; ymom; zmom; temp])
             (InternalCoupling.write_timeheight fname xmom ymom zmom temp).
Proof.
  unfold InternalCoupling.write_timeheight. cbn zeta.
  repeat match goal with
         | |- only_grows _ (for_each _ InternalCoupling.zero_fill_self) =>
             apply only_grows_for_each; intros field Hin;
             apply zero_fill_self_only_grows; intros f ->;
             apply list_elem_of_In, list_elem_of_omap; exists (Some f);
             split; [apply list_elem_of_In; exact Hin|reflexivity]
         | |- only_grows _ (bind _ _) => apply only_grows_bind; [|intros ?]
         | |- only_grows _ _ =>
             apply only_grows_keeps_self; solve [repeat frame_step]
         end.
Qed.

(** ** The outcome of an export depends on the instance only *)

Section Blind.
Context {A B : Type}.

Lemma blind_ret (a : A) : blind (ret a).
Proof. intros s1 s2. reflexivity. Qed.

Lemma blind_raise (e : exn) : blind (@raise FileSystem A e).
Proof. intros s1 s2. reflexivity. Qed.

Lemma blind_bind (c : M FileSystem A) (k : A -> M FileSystem B) :
  blind c -> (forall a, blind (k a)) -> blind (bind c k).
Proof.
  intros Hc Hk s1 s2. unfold bind. specialize (Hc s1 s2).
  destruct (c s1) as [[e|a] s1'], (c s2) as [[e'|a'] s2']; cbn [fst] in *;
    try discriminate; try congruence.
  injection Hc as <-. apply Hk.
Qed.

Lemma outcome_by_self_ret (a : A) : outcome_by_self (ret a).
Proof. intros w1 w2 H. split; [reflexivity|exact H]. Qed.

Lemma outcome_by_self_raise (e : exn) : outcome_by_self (@raise World A e).
Proof. intros w1 w2 H. split; [reflexivity|exact H]. Qed.

Lemma outcome_by_self_lift (r : exn + A) : outcome_by_self (lift r).
Proof. intros w1 w2 H. split; [reflexivity|exact H]. Qed.

Lemma outcome_by_self_on_fs (c : M FileSystem A) :
  blind c -> outcome_by_self (on_fs c).
Proof.
  intros Hc w1 w2 H. unfold on_fs. specialize (Hc (fs w1) (fs w2)).
  destruct (c (fs w1)), (c (fs w2)). cbn [fst snd self] in *. auto.
Qed.

Lemma outcome_by_self_bind (c : M World A) (k : A -> M World B) :
  outcome_by_self c -> (forall a, outcome_by_self (k a)) ->
  outcome_by_self (bind c k).
Proof.
  intros Hc Hk w1 w2 H. unfold bind. destruct (Hc w1 w2 H) as [Hr Hs].
  destruct (c w1) as [[e|a] w1'], (c w2) as [[e'|a'] w2']; cbn [fst snd] in *;
    try discriminate.
  - split; [congruence|exact Hs].
  - injection Hr as <-. apply Hk. exact Hs.
Qed.
End Blind.

Lemma blind_for_each {A} (l : list A) (body : A -> M FileSystem unit) :
  (forall x, blind (body x)) -> blind (for_each l body).
Proof.
  intros Hb. induction l as [|x l IH]; cbn [for_each].
  - apply blind_ret.
  - apply blind_bind; auto.
Qed.

Lemma blind_write (fid text : string) : blind (Os.write fid text).
Proof. intros s1 s2. reflexivity. Qed.

Lemma blind_open_w (path : string) : blind (Os.open_w path).
Proof. intros s1 s2. reflexivity. Qed.

Lemma blind_savetxt (fid : string) (X : ndarray) (fmt : list conversion)
    (header footer : string) :
  blind (savetxt fid X fmt header footer).
Proof.
  unfold savetxt. destruct (negb _); [apply blind_raise|].
  repeat first [ apply blind_bind; [|intros ?]
               | apply blind_for_each; intros ?
               | apply blind_ret
               | apply blind_write
               | match goal with |- _ (if ?b then _ else _) => destruct b end ].
Qed.

Lemma outcome_by_self_get_self : outcome_by_self get_self.
Proof. intros w1 w2 H. cbn. rewrite H. auto. Qed.

Lemma outcome_by_self_set_df (d : DataFrame) : outcome_by_self (set_df d).
Proof. intros w1 w2 H. cbn. rewrite H. auto. Qed.

Lemma outcome_by_self_assert (cond : bool) (msg : option string) :
  outcome_by_self (assert cond msg).
Proof. intros w1 w2 H. destruct cond; cbn; auto. Qed.

Lemma outcome_by_self_for_each {A} (l : list A) (body : A -> M World unit) :
  (forall x, outcome_by_self (body x)) -> outcome_by_self (for_each l body).
Proof.
  intros Hb. induction l as [|x l IH]; cbn [for_each].
  - apply outcome_by_self_ret.
  - apply outcome_by_self_bind; auto.
Qed.

Ltac outcome_step :=
  match goal with
  | |- outcome_by_self (bind _ _) => apply outcome_by_self_bind; [|intros ?]
  | |- outcome_by_self (for_each _ _) => apply outcome_by_self_for_each; intros ?
  | |- outcome_by_self (on_fs _) =>
      apply outcome_by_self_on_fs;
      first [apply blind_open_w | apply blind_write | apply blind_savetxt]
  | |- outcome_by_self (ret _) => apply outcome_by_self_ret
  | |- outcome_by_self (raise _) => apply outcome_by_self_raise
  | |- outcome_by_self (lift _) => apply outcome_by_self_lift
  | |- outcome_by_self (assert _ _) => apply outcome_by_self_assert
  | |- outcome_by_self get_self => apply outcome_by_self_get_self
  | |- outcome_by_self (set_df _) => apply outcome_by_self_set_df
  | |- outcome_by_self (match ?x with _ => _ end) => destruct x
  end.

Lemma call_outcome_by_self (e : export) : outcome_by_self (call e).
Proof.
  destruct e; cbn [call];
    unfold InternalCoupling.write_BCs, InternalCoupling.write_ICs,
      InternalCoupling.write_timeheight, InternalCoupling.write_table,
      InternalCoupling.write_heights, InternalCoupling.zero_fill_self;
    cbn zeta; repeat outcome_step.
Qed.

(** ** Writing a file *)

Lemma string_app_assoc (s1 s2 s3 : string) :
  (s1 +:+ s2) +:+ s3 = s1 +:+ (s2 +:+ s3).
Proof.
  induction s1 as [|a s1 IH]; [reflexivity|].
  change (String a ((s1 +:+ s2) +:+ s3) = String a (s1 +:+ (s2 +:+ s3))).
  rewrite IH. reflexivity.
Qed.

Lemma string_app_nil_r (s : string) : s +:+ "" = s.
Proof.
  induction s as [|a s IH]; [reflexivity|].
  change (String a (s +:+ "") = String a s). rewrite IH. reflexivity.
Qed.


Lemma appended_written (fid pre text : string) (s : FileSystem) :
  Os.appended fid text (Os.written fid pre s) = Os.written fid (pre +:+ text) s.
Proof.
  unfold Os.appended, Os.written. cbn [files dirs].
  rewrite lookup_insert_eq, insert_insert_eq. reflexivity.
Qed.

Lemma write_run (fid pre text : string) (s : FileSystem) :
  Os.write fid text (Os.written fid pre s)
  = (inr tt, Os.written fid (pre +:+ text) s).
Proof. unfold Os.write, modify. rewrite appended_written. reflexivity. Qed.

Lemma for_each_write_run {A} (fid : string) (f : A -> string) (l : list A) :
  forall (pre : string) (s : FileSystem),
    for_each l (fun x => Os.write fid (f x)) (Os.written fid pre s)
    = (inr tt, Os.written fid (pre +:+ String.concat "" (map f l)) s).
Proof.
  induction l as [|x l IH]; intros pre s; cbn [for_each map].
  - change (String.concat "" []) with "". rewrite string_app_nil_r. reflexivity.
  - unfold bind. rewrite write_run, IH. f_equal. f_equal.
    rewrite string_app_assoc. f_equal.
    destruct l as [|y l]; [cbn [map]|reflexivity].
    change (String.concat "" [f x]) with (f x).
    change (String.concat "" []) with "". rewrite string_app_nil_r. reflexivity.
Qed.

Lemma savetxt_run (fid : string) (X : ndarray) (fmt : list conversion)
    (header footer pre : string) (s : FileSystem) :
  length fmt = snd (shape X) ->
  savetxt fid X fmt header footer (Os.written fid pre s)
  = (inr tt, Os.written fid (pre +:+ savetxt_text X fmt header footer) s).
Proof.
  intros Hfmt. unfold savetxt, savetxt_text.
  rewrite Hfmt, Nat.eqb_refl. cbn [negb]. unfold bind.
  destruct (String.eqb header "").
  - unfold ret at 1. rewrite for_each_write_run.
    destruct (String.eqb footer "").
    + unfold ret. rewrite string_app_nil_r. reflexivity.
    + rewrite write_run, string_app_assoc. reflexivity.
  - rewrite write_run, for_each_write_run.
    destruct (String.eqb footer "").
    + unfold ret. rewrite string_app_nil_r, string_app_assoc. reflexivity.
    + rewrite write_run, !string_app_assoc. reflexivity.
Qed.

Lemma on_fs_run {A} (c : M FileSystem A) (w : World) (r : exn + A) (s : FileSystem) :
  c (fs w) = (r, s) -> on_fs c w = (r, {| self := self w; fs := s |}).
Proof. intros H. unfold on_fs. rewrite H. reflexivity. Qed.

(** ** The boundary-condition export *)

Lemma bind_get_self {A} (k : Writer -> M World A) (w : World) :
  bind get_self k w = k (self w) w.
Proof. reflexivity. Qed.

Lemma bind_open_w {A} (path : string) (k : string -> M World A) (w : World) :
  bind (on_fs (Os.open_w path)) k w
  = k path {| self := self w; fs := Os.written path "" (fs w) |}.
Proof. reflexivity. Qed.

Lemma lookup_has_column (c : string) (d : DataFrame) (v : list float) :
  Pandas.lookup_column c (columns d) = Some v -> Pandas.has_column c d = true.
Proof.
  unfold Pandas.has_column.
  induction (columns d) as [|[c' v'] cols IH]; cbn [Pandas.lookup_column map fst existsb];
    [discriminate|].
  destruct (String.eqb c c'); cbn [orb]; auto.
Qed.

Lemma has_column_lookup (c : string) (d : DataFrame) :
  Pandas.has_column c d = true ->
  exists v, Pandas.lookup_column c (columns d) = Some v.
Proof.
  unfold Pandas.has_column.
  induction (columns d) as [|[c' v'] cols IH]; cbn [Pandas.lookup_column map fst existsb];
    [discriminate|].
  destruct (String.eqb c c'); cbn [orb]; eauto.
Qed.

Lemma lookup_well_formed (c : string) (d : DataFrame) (v : list float) :
  well_formed d ->
  Pandas.lookup_column c (columns d) = Some v ->
  length v = length (index d).
Proof.
  unfold well_formed.
  induction (columns d) as [|[c' v'] cols IH]; cbn [Pandas.lookup_column];
    [discriminate|].
  intros Hwf. apply Forall_cons_1 in Hwf as [Hv Hwf].
  destruct (String.eqb c c'); [|auto].
  intros H. injection H as <-. exact Hv.
Qed.

Lemma reshape_ok (v : list float) (n : nat) :
  length v = n -> reshape v n = inr (Numpy.column_vector v).
Proof. intros <-. unfold reshape. rewrite Nat.eqb_refl. reflexivity. Qed.

Lemma BC_format_row (t v : float) :
  Numpy.format_row [Numpy.g "    (" ""; Numpy.g12 "" ")"] [t; v] = BC_line t v.
Proof.
  unfold Numpy.format_row, BC_line, Numpy.convert, Numpy.g, Numpy.g12.
  cbn [zip_with prefix suffix precision].
  change (String.concat " " [?a; ?b]) with (a +:+ " " +:+ b).
  rewrite !string_app_nil_r, !string_app_assoc. reflexivity.
Qed.

Lemma BC_rows (fact : float) (ts vs : list float) :
  map (Numpy.format_row [Numpy.g "    (" ""; Numpy.g12 "" ")"])
      (zip_with (@app float) (map (fun x => [x]) ts)
                (map (fun x => [x]) (map (PrimFloat.mul fact) vs)))
  = zip_with (fun t v => BC_line t (PrimFloat.mul fact v)) ts vs.
Proof.
  revert vs. induction ts as [|t ts IH]; intros [|v vs]; try reflexivity.
  cbn [map zip_with app]. rewrite BC_format_row, IH. reflexivity.
Qed.

Lemma write_BCs_run (fname fieldname : string) (fact : float) (w : World)
    (ts vs : list float) :
  Pandas.lookup_column "t_index" (columns (df (self w))) = Some ts ->
  Pandas.lookup_column fieldname (columns (df (self w))) = Some vs ->
  length vs = length ts ->
  Pandas.any_isna vs = false ->
  InternalCoupling.write_BCs fname fieldname fact w
  = (inr tt,
     {| self := self w;
        fs := Os.written
                (Os.path_join (dpath (self w)) fname)
                (String.concat
                   "" (zip_with (fun t v => BC_line t (PrimFloat.mul fact v)) ts vs))
                (fs w) |}).
Proof.
  intros Hts Hvs Hlen Hna. unfold InternalCoupling.write_BCs.
  rewrite bind_get_self. unfold Pandas.getattr, Pandas.getitem.
  rewrite Hts, Hvs, bind_lift_inr. cbn zeta.
  rewrite (lookup_has_column _ _ _ Hvs), bind_assert_true, bind_lift_inr.
  rewrite Hna. cbn [negb]. rewrite bind_assert_true, bind_open_w.
  rewrite (reshape_ok ts) by reflexivity. rewrite bind_lift_inr.
  rewrite reshape_ok by (rewrite length_map; exact Hlen).
  rewrite bind_lift_inr.
  cbn [Numpy.concatenate]. unfold Numpy.hstack, Numpy.column_vector.
  cbn [shape fst snd data]. rewrite length_map, Hlen, Nat.eqb_refl, bind_lift_inr.
  erewrite on_fs_run; [|cbn [fs]; apply savetxt_run; reflexivity].
  cbn [self]. unfold savetxt_text. cbn [String.eqb data].
  rewrite BC_rows, string_app_nil_r. reflexivity.
Qed.

Lemma length_take_mask {A B} (mask : list bool) :
  forall (v : list A) (l : list B),
    length v = length l ->
    length (Pandas.take_mask mask v) = length (Pandas.take_mask mask l).
Proof.
  induction mask as [|b mask IH]; intros [|x v] [|y l] H; try discriminate H;
    try reflexivity.
  injection H as H. cbn [Pandas.take_mask].
  destruct b; cbn [length]; rewrite (IH v l H); reflexivity.
Qed.

Lemma well_formed_loc_mask (d : DataFrame) (mask : list bool) :
  well_formed d -> well_formed (Pandas.loc_mask d mask).
Proof.
  unfold well_formed, Pandas.loc_mask. cbn [index columns].
  intros H. induction H as [|[c v] cols Hv H IH]; cbn [map]; constructor.
  - cbn [snd] in *. apply length_take_mask. exact Hv.
  - exact IH.
Qed.

Lemma well_formed_setitem (c : string) (v : list float) (d : DataFrame) :
  well_formed d -> length v = length (index d) ->
  well_formed (Pandas.setitem c v d).
Proof.
  unfold well_formed, Pandas.setitem. cbn [index columns]. intros H Hv.
  induction (columns d) as [|[c' v'] cols IH]; cbn [Pandas.assign_column].
  - constructor; [exact Hv|constructor].
  - apply Forall_cons_1 in H as [Hv' H].
    destruct (String.eqb c c'); constructor; auto.
Qed.

Lemma bound_copy_bound_frame (d : DataFrame) (dateref : option Z) (a b : Z) :
  well_formed d -> bound_frame (bound_copy d dateref a b).
Proof.
  intros H. unfold bound_copy. cbn zeta. split.
  - apply well_formed_setitem; [apply well_formed_loc_mask; exact H|].
    apply length_map.
  - apply (lookup_has_column _ _ (map (elapsed dateref)
             (index (Pandas.loc_mask d (map (in_window a b) (index d)))))).
    unfold Pandas.setitem. cbn [columns]. apply lookup_assign_column.
Qed.

(** The constructor binds a frame that is well formed when the data are. *)
Lemma init_bound_frame (dpath : string) (d : DataFrame)
    (dateref datefrom dateto : option Z) (s : FileSystem) (w : Writer) :
  well_formed d ->
  fst (InternalCoupling.init dpath d dateref datefrom dateto s) = inr w ->
  bound_frame (df w).
Proof.
  intros Hwf Hr.
  pose proof (init_cases dpath d dateref datefrom dateto s) as H.
  cbn zeta in H. rewrite Hr in H.
  destruct (window d datefrom dateto) as [[a b]|]; [|discriminate].
  destruct (List.filter (in_window a b) (index d)); [discriminate|].
  destruct (time_base dateref d); [|destruct H as (e & He & _); discriminate].
  injection H as ->. apply bound_copy_bound_frame. exact Hwf.
Qed.

(** ** The initial-condition export *)

Lemma lookup_assign_column_ne {V} (c c' : string) (x : V) (cols : list (string * V)) :
  String.eqb c c' = false ->
  Pandas.lookup_column c (Pandas.assign_column c' x cols)
  = Pandas.lookup_column c cols.
Proof.
  intros Hne.
  induction cols as [|[c'' v] cols IH]; cbn [Pandas.assign_column Pandas.lookup_column].
  - rewrite Hne. reflexivity.
  - destruct (String.eqb c' c'') eqn:Hc; cbn [Pandas.lookup_column].
    + apply String.eqb_eq in Hc. subst c''. rewrite Hne. reflexivity.
    + rewrite IH. reflexivity.
Qed.

Lemma has_column_false_lookup (c : string) (d : DataFrame) :
  Pandas.has_column c d = false -> Pandas.lookup_column c (columns d) = None.
Proof. apply lookup_column_absent. Qed.

Lemma index_zero_fill (names : list string) :
  forall d, index (InternalCoupling.zero_fill names d) = index d.
Proof.
  unfold InternalCoupling.zero_fill.
  induction names as [|n names IH]; intros d; cbn [fold_left]; [reflexivity|].
  rewrite IH. destruct (negb _); reflexivity.
Qed.

Lemma lookup_zero_fill (f : string) (names : list string) :
  forall d,
    Pandas.lookup_column f (columns (InternalCoupling.zero_fill names d))
    = match Pandas.lookup_column f (columns d) with
      | Some v => Some v
      | None =>
          if existsb (String.eqb f) names
          then Some (repeat 0%float (length (index d)))
          else None
      end.
Proof.
  unfold InternalCoupling.zero_fill.
  induction names as [|n names IH]; intros d; cbn [fold_left existsb].
  - destruct (Pandas.lookup_column f (columns d)); reflexivity.
  - rewrite IH. destruct (Pandas.has_column n d) eqn:Hn; cbn [negb].
    + destruct (Pandas.lookup_column f (columns d)) eqn:Hf; [reflexivity|].
      destruct (String.eqb f n) eqn:Hfn; [|reflexivity].
      apply String.eqb_eq in Hfn. subst n.
      apply has_column_lookup in Hn as [v Hv]. congruence.
    + unfold Pandas.fill_column, Pandas.setitem. cbn [columns index].
      destruct (String.eqb f n) eqn:Hfn.
      * apply String.eqb_eq in Hfn. subst n.
        rewrite lookup_assign_column, (has_column_false_lookup _ _ Hn).
        reflexivity.
      * rewrite (lookup_assign_column_ne _ _ _ _ Hfn). reflexivity.
Qed.

Lemma getitem_zero_fill (f : string) (names : list string) (d : DataFrame) :
  In f names ->
  Pandas.getitem f (InternalCoupling.zero_fill names d) = inr (column_or_zeros d f).
Proof.
  intros Hin. unfold Pandas.getitem, column_or_zeros. rewrite lookup_zero_fill.
  destruct (Pandas.lookup_column f (columns d)); [reflexivity|].
  replace (existsb (String.eqb f) names) with true; [reflexivity|].
  symmetry. apply existsb_exists. exists f. split; [exact Hin|apply String.eqb_refl].
Qed.

Lemma length_column_or_zeros (d : DataFrame) (f : string) :
  well_formed d -> length (column_or_zeros d f) = length (index d).
Proof.
  intros Hwf. unfold column_or_zeros.
  destruct (Pandas.lookup_column f (columns d)) eqn:Hf.
  - eapply lookup_well_formed; eauto.
  - apply repeat_length.
Qed.

Lemma zeros_complete (n : nat) : Pandas.any_isna (repeat 0%float n) = false.
Proof. induction n as [|n IH]; [reflexivity|exact IH]. Qed.

Lemma IC_format_row (z x y theta : float) :
  Numpy.format_row
    ([Numpy.g "    (" ""] ++ repeat (Numpy.g12 "" "") 2 ++ [Numpy.g12 "" ")"])
    [z; x; y; theta]
  = IC_line z x y theta.
Proof.
  unfold Numpy.format_row, IC_line, Numpy.convert, Numpy.g, Numpy.g12.
  cbn [zip_with prefix suffix precision repeat app].
  change (String.concat " " [?a; ?b; ?c; ?d])
    with (a +:+ " " +:+ b +:+ " " +:+ c +:+ " " +:+ d).
  rewrite !string_app_nil_r, !string_app_assoc. reflexivity.
Qed.

Lemma IC_rows (zs : list float) :
  forall xs ys thetas,
    map (Numpy.format_row
           ([Numpy.g "    (" ""] ++ repeat (Numpy.g12 "" "") 2 ++ [Numpy.g12 "" ")"]))
        (zip_with (@app float)
           (zip_with (@app float)
              (zip_with (@app float) (map (fun v => [v]) zs)
                        (map (fun v => [v]) xs))
              (map (fun v => [v]) ys))
           (map (fun v => [v]) thetas))
    = IC_lines zs xs ys thetas.
Proof.
  induction zs as [|z zs IH]; intros [|x xs] [|y ys] [|t ts]; try reflexivity.
  cbn [map zip_with IC_lines]. rewrite <- IH.
  change ((([z] ++ [x]) ++ [y]) ++ [t]) with [z; x; y; t].
  rewrite IC_format_row. reflexivity.
Qed.

Lemma loc_label_frame (d : DataFrame) (label : Z) :
  (2 <= length (index (Pandas.loc_mask d (Pandas.index_eq d label))))%nat ->
  Pandas.loc_label d label
  = inr (inr (Pandas.loc_mask d (Pandas.index_eq d label))).
Proof.
  unfold Pandas.loc_label. cbn zeta.
  destruct (index (Pandas.loc_mask d (Pandas.index_eq d label))) as [|l1 [|l2 ls]];
    cbn [length]; intros H; try lia. reflexivity.
Qed.

Lemma write_ICs_run (fname xmom ymom temp : string) (w : World) (zs : list float) :
  let d := df (self w) in
  let snapshot := Pandas.loc_mask d (Pandas.index_eq d (datefrom (self w))) in
  let column := column_or_zeros snapshot in
  well_formed d ->
  (2 <= length (index snapshot))%nat ->
  Pandas.lookup_column "height" (columns snapshot) = Some zs ->
  InternalCoupling.write_ICs fname xmom ymom temp w
  = if Pandas.any_isna (column xmom) || Pandas.any_isna (column ymom)
       || Pandas.any_isna (column temp)
    then (inl (AssertionError None), w)
    else (inr tt,
          {| self := self w;
             fs := Os.written
                     (Os.path_join (dpath (self w)) fname)
                     (String.concat
                        "" (IC_lines zs (column xmom) (column ymom) (column temp)))
                     (fs w) |}).
Proof.
  intros d snapshot column Hwf Hrows Hzs.
  assert (Hsnap : well_formed snapshot) by (apply well_formed_loc_mask; exact Hwf).
  unfold InternalCoupling.write_ICs. rewrite bind_get_self.
  fold d. rewrite (loc_label_frame d _ Hrows). fold snapshot.
  rewrite bind_lift_inr. unfold Pandas.copy. cbn zeta.
  set (filled := InternalCoupling.zero_fill [xmom; ymom; temp] snapshot).
  assert (Hx : Pandas.getitem xmom filled = inr (column xmom))
    by (apply getitem_zero_fill; cbn; auto).
  assert (Hy : Pandas.getitem ymom filled = inr (column ymom))
    by (apply getitem_zero_fill; cbn; auto).
  assert (Ht : Pandas.getitem temp filled = inr (column temp))
    by (apply getitem_zero_fill; cbn; auto).
  assert (Hh : Pandas.getattr "height" filled = inr zs).
  { unfold Pandas.getattr. subst filled. rewrite lookup_zero_fill, Hzs. reflexivity. }
  rewrite Hh, bind_lift_inr. cbn [for_each].
  rewrite Hx, Hy, Ht, !bind_lift_inr.
  assert (Hlz : length zs = length (index snapshot))
    by (eapply lookup_well_formed; eauto).
  pose proof (length_column_or_zeros snapshot xmom Hsnap) as Hlx.
  pose proof (length_column_or_zeros snapshot ymom Hsnap) as Hly.
  pose proof (length_column_or_zeros snapshot temp Hsnap) as Hlt.
  fold column in Hlx, Hly, Hlt.
  destruct (Pandas.any_isna (column xmom)); cbn [negb orb];
    [rewrite bind_assert_false; reflexivity|rewrite bind_assert_true].
  rewrite ?bind_lift_inr.
  destruct (Pandas.any_isna (column ymom)); cbn [negb orb];
    [rewrite bind_assert_false; reflexivity|rewrite bind_assert_true].
  rewrite ?bind_lift_inr.
  destruct (Pandas.any_isna (column temp)); cbn [negb orb];
    [rewrite bind_assert_false; reflexivity|rewrite bind_assert_true].
  rewrite ?bind_ret, bind_open_w.
  rewrite (reshape_ok zs) by reflexivity. rewrite ?bind_lift_inr.
  rewrite (reshape_ok (column xmom)) by congruence. rewrite ?bind_lift_inr.
  rewrite (reshape_ok (column ymom)) by congruence. rewrite ?bind_lift_inr.
  rewrite (reshape_ok (column temp)) by congruence. rewrite ?bind_lift_inr.
  cbn [Numpy.concatenate]. unfold Numpy.hstack, Numpy.column_vector.
  cbn [shape fst snd data].
  replace (length (column xmom)) with (length zs) by congruence.
  replace (length (column ymom)) with (length zs) by congruence.
  replace (length (column temp)) with (length zs) by congruence.
  rewrite ?Nat.eqb_refl. cbn [shape fst snd data].
  rewrite ?Nat.eqb_refl. cbn [shape fst snd data].
  rewrite ?Nat.eqb_refl, ?bind_lift_inr.
  erewrite on_fs_run; [|cbn [fs]; apply savetxt_run; reflexivity].
  cbn [self]. unfold savetxt_text. cbn [String.eqb data].
  rewrite IC_rows, string_app_nil_r. reflexivity.
Qed.

(** ** The time-height export on ordered data *)

Lemma bind_run {S A B} (c : M S A) (k : A -> M S B) (s s' : S) (a : A) :
  c s = (inr a, s') -> bind c k s = k a s'.
Proof. intros H. unfold bind. rewrite H. reflexivity. Qed.

Lemma length_insert_sorted {A} (lt : A -> A -> bool) (x : A) (l : list A) :
  length (Pandas.insert_sorted lt x l) = S (length l).
Proof.
  induction l as [|y l IH]; cbn [Pandas.insert_sorted]; [reflexivity|].
  destruct (lt y x); cbn [length]; [rewrite IH|]; reflexivity.
Qed.

Lemma length_sort {A} (lt : A -> A -> bool) (l : list A) :
  length (Pandas.sort lt l) = length l.
Proof.
  unfold Pandas.sort. induction l as [|x l IH]; cbn [fold_right]; [reflexivity|].
  rewrite length_insert_sorted, IH. reflexivity.
Qed.














Lemma pivot_values_single (f : string) (pv : Pandas.Pivot)
    (before after : list (string * list (list float))) (M : list (list float)) :
  Pandas.pivot_tables pv = before ++ (f, M) :: after ->
  Forall (fun t => String.eqb f (fst t) = false) before ->
  Forall (fun t => String.eqb f (fst t) = false) after ->
  pivot_values (Some f) pv
  = inr {| shape := (length (Pandas.pivot_index pv),
                     length (Pandas.pivot_columns pv));
           data := M |}.
Proof.
  intros Ht Hb Ha. unfold pivot_values. rewrite Ht, List.filter_app.
  assert (Hnone : forall l : list (string * list (list float)),
             Forall (fun t => String.eqb f (fst t) = false) l ->
             List.filter (fun t => String.eqb f (fst t)) l = []).
  { intros l Hl. induction Hl as [|t l Hf Hl IH]; cbn [List.filter];
      [reflexivity|]. rewrite Hf. exact IH. }
  rewrite (Hnone before Hb). cbn [app List.filter fst].
  rewrite String.eqb_refl, (Hnone after Ha). cbn [fold_left length snd].
  rewrite Nat.mul_1_l. reflexivity.
Qed.


(** ** The example worlds are what the constructor builds *)

Example profiles_world_constructed :
  InternalCoupling.init "out" profiles (Some (sec 40)) None None no_files
  = (inr (self profiles_world), fs profiles_world).
Proof. vm_compute. reflexivity. Qed.

Example fluxes_world_constructed :
  InternalCoupling.init "out" surface_fluxes None None None no_files
  = (inr (self fluxes_world), fs fluxes_world).
Proof. vm_compute. reflexivity. Qed.

(** ** The constructor *)

(** C1. Let [a, b] be the window, an endpoint left out being the first or
    the last label of the data. If no row of the data has its label in
    [a, b], the constructor raises [EmptyWindowError]. If the constructor
    returns, the labels of the bound frame are the labels of the data in
    [a, b], in their order, and its rows are exactly the rows of the data
    with a label in [a, b], field by field. It does return when such a row
    exists and the index fits the time base. *)
Theorem init_window_filter (dpath : string) (d : DataFrame)
    (dateref datefrom dateto : option Z) (s : FileSystem) (a b : Z) :
  window d datefrom dateto = Some (a, b) ->
  let run := fst (InternalCoupling.init dpath d dateref datefrom dateto s) in
  let selected :=
    List.filter (fun r => in_window a b (fst r)) (rows (index d) (columns d)) in
  (selected = [] -> run = inl EmptyWindowError)
  /\ (forall w, run = inr w ->
        index (df w) = List.filter (in_window a b) (index d)
        /\ data_rows (df w)
           = List.filter (fun r => in_window a b (fst r)) (data_rows d))
  /\ (selected <> [] -> time_base dateref d = true -> exists w, run = inr w).
Proof.
  intros Hw run selected.
  pose proof (init_cases dpath d dateref datefrom dateto s) as H.
  cbn zeta in H. fold run in H. rewrite Hw in H.
  assert (Hsel : selected = [] <-> List.filter (in_window a b) (index d) = [])
    by apply filter_rows_nil.
  destruct (List.filter (in_window a b) (index d)) as [|l ls] eqn:Hf.
  - split; [intros _; exact H|]. split.
    + intros w Hr. rewrite Hr in H. discriminate.
    + intros Hne. exfalso. apply Hne, Hsel. reflexivity.
  - split; [intros He; apply Hsel in He; discriminate|].
    destruct (time_base dateref d).
    + split; [|intros _ _; eexists; exact H].
      intros w Hr. rewrite Hr in H. injection H as ->.
      cbn [df]. split; [|apply data_rows_bound_copy].
      unfold bound_copy, Pandas.setitem, Pandas.loc_mask. cbn [index].
      rewrite take_mask_map. exact Hf.
    + destruct H as (e & He & _). split; [|intros _ Hd; discriminate].
      intros w Hr. rewrite Hr in He. discriminate.
Qed.

Lemma init_window_filter_witness :
  window surface_fluxes None (Some (sec 1)) = Some (sec 0, sec 1)
  /\ exists w,
       fst (InternalCoupling.init "out" surface_fluxes None None (Some (sec 1)) no_files)
       = inr w
       /\ index (df w) = [sec 0; sec 1].
Proof.
  split; [reflexivity|].
  destruct (init_window_filter "out" surface_fluxes None None (Some (sec 1))
              no_files (sec 0) (sec 1) eq_refl) as (_ & Hrows & Hok).
  destruct Hok as [w Hw]; [discriminate|reflexivity|].
  exists w. split; [exact Hw|]. apply (Hrows w Hw).
Defined.



(** On an empty frame an endpoint left out has no default: [df.index[0]]
    raises [IndexError] before any row is selected. *)
Lemma init_empty_frame (dpath : string) (d : DataFrame)
    (dateref datefrom dateto : option Z) (s : FileSystem) :
  index d = [] ->
  datefrom = None \/ dateto = None ->
  fst (InternalCoupling.init dpath d dateref datefrom dateto s) = inl IndexError.
Proof.
  intros Hd Hnone.
  pose proof (init_cases dpath d dateref datefrom dateto s) as H.
  cbn zeta in H. unfold window in H. rewrite Hd in H.
  destruct Hnone as [-> | ->]; [|destruct datefrom]; exact H.
Qed.

(** ** Momentum components: all or none *)

(** C3. A call of the time-height export with one or two of the three
    momentum components stops with [IncompleteMomentumSpecError] and leaves
    the world as it was, so nothing has been written; with none or all three
    of them, whatever [temp] is, the call never raises that error. *)
Theorem write_timeheight_momentum_all_or_none (fname : string)
    (xmom ymom zmom temp : option string) (w : World) :
  let run := InternalCoupling.write_timeheight fname xmom ymom zmom temp w in
  if incomplete_momentum xmom ymom zmom
  then run = (inl IncompleteMomentumSpecError, w)
  else fst run <> inl IncompleteMomentumSpecError.
Proof.
  cbn zeta. destruct (incomplete_momentum xmom ymom zmom) eqn:H.
  - apply write_timeheight_incomplete. exact H.
  - intros Hrun.
    exact (write_timeheight_complete fname xmom ymom zmom temp H w _ Hrun eq_refl).
Qed.

(** C10. When the time-height export raises [IncompleteMomentumSpecError],
    the instance, and with it the bound frame, is what it was before the
    call. *)
Theorem write_timeheight_momentum_error_keeps_bound_copy (fname : string)
    (xmom ymom zmom temp : option string) (w : World) :
  fst (InternalCoupling.write_timeheight fname xmom ymom zmom temp w)
  = inl IncompleteMomentumSpecError ->
  self (snd (InternalCoupling.write_timeheight fname xmom ymom zmom temp w))
  = self w.
Proof.
  intros Hrun. destruct (incomplete_momentum xmom ymom zmom) eqn:H.
  - rewrite (write_timeheight_incomplete fname xmom ymom zmom temp w H).
    reflexivity.
  - exfalso.
    exact (write_timeheight_complete fname xmom ymom zmom temp H w _ Hrun eq_refl).
Qed.

Lemma write_timeheight_momentum_error_keeps_bound_copy_witness :
  fst (InternalCoupling.write_timeheight "forcing" (Some "u") None (Some "w") None
         profiles_world)
  = inl IncompleteMomentumSpecError
  /\ self (snd (InternalCoupling.write_timeheight
                  "forcing" (Some "u") None (Some "w") None profiles_world))
     = self profiles_world.
Proof.
  split; [reflexivity|].
  apply (write_timeheight_momentum_error_keeps_bound_copy
           "forcing" (Some "u") None (Some "w") None profiles_world).
  reflexivity.
Defined.

(** ** Validation comes before output *)

(** C7. Whichever export is called, when one of its assertions fails (a
    missing field, incomplete data, an incomplete momentum specification) the
    files are what they were before the call: the output file has been
    neither created nor changed. *)
Theorem validation_failure_writes_nothing (e : export) (w : World)
    (msg : option string) :
  fst (call e w) = inl (AssertionError msg) ->
  fs (snd (call e w)) = fs w.
Proof.
  destruct e; cbn [call].
  - apply write_BCs_validates_first.
  - apply write_ICs_validates_first.
  - apply write_timeheight_validates_first.
Qed.

Lemma validation_failure_writes_nothing_witness :
  fst (call (BCs "qwall" "flux" 1%float) fluxes_world)
  = inl (MissingFieldError "flux")
  /\ fs (snd (call (BCs "qwall" "flux" 1%float) fluxes_world)) = fs fluxes_world.
Proof.
  split; [reflexivity|].
  apply (validation_failure_writes_nothing
           (BCs "qwall" "flux" 1%float) fluxes_world (Some (msg_not_in_df "flux"))).
  reflexivity.
Defined.

(** ** The bound copy across exports *)

Lemma grows_lookup (fields : list string) (d d' : DataFrame) (c : string)
    (v : list float) :
  grows fields d d' ->
  Pandas.lookup_column c (columns d) = Some v ->
  Pandas.lookup_column c (columns d') = Some v.
Proof.
  intros (_ & _ & _ & added & -> & _).
  induction (columns d) as [|[c' v'] cols IH]; cbn [Pandas.lookup_column app];
    [discriminate|].
  destruct (String.eqb c c'); auto.
Qed.

(** C8, as the claim states it, fails: the time-height export called with
    the names of fields the frame lacks adds their zero columns to the bound
    frame itself. *)
Lemma write_timeheight_changes_bound_copy :
  df (self (snd (call (TimeHeight "forcing" (Some "u") (Some "v") (Some "w") None)
                      profiles_world)))
  <> df (self profiles_world).
Proof.
  intros H. apply (f_equal (Pandas.has_column "v")) in H.
  vm_compute in H. discriminate H.
Qed.

(** C8, amended. The boundary-condition and the initial-condition export
    leave the instance as it was. The time-height export leaves the folder,
    the start of the window, the labels and every column of the bound frame,
    [t_index] among them, as they were; all it changes is to append an
    all-zero column for requested fields the frame lacks. *)
Theorem exports_keep_bound_rows (w : World) :
  (forall fname fieldname fact,
     self (snd (call (BCs fname fieldname fact) w)) = self w)
  /\ (forall fname xmom ymom temp,
        self (snd (call (ICs fname xmom ymom temp) w)) = self w)
  /\ (forall fname xmom ymom zmom temp,
        let w' := snd (call (TimeHeight fname xmom ymom zmom temp) w) in
        dpath (self w') = dpath (self w)
        /\ datefrom (self w') = datefrom (self w)
        /\ grows (omap id [xmom; ymom; zmom; temp]) (df (self w)) (df (self w'))
        /\ forall c v,
             Pandas.lookup_column c (columns (df (self w))) = Some v ->
             Pandas.lookup_column c (columns (df (self w'))) = Some v).
Proof.
  split; [|split].
  - intros. apply write_BCs_keeps_self.
  - intros. apply write_ICs_keeps_self.
  - intros fname xmom ymom zmom temp w'.
    destruct (write_timeheight_only_grows fname xmom ymom zmom temp w)
      as (Hd & Hf & Hg).
    repeat (split; [assumption|]).
    intros c v. apply (grows_lookup _ _ _ _ _ Hg).
Qed.

(** C9. The initial-condition export leaves the instance as it was: the zero
    columns it fills in for absent fields are columns of its own copy of the
    snapshot. So the outcome of any later export, and the instance after it,
    are what they would have been without the call. *)
Theorem write_ICs_keeps_bound_copy (fname xmom ymom temp : string) (w : World) :
  let w' := snd (InternalCoupling.write_ICs fname xmom ymom temp w) in
  self w' = self w
  /\ columns (df (self w')) = columns (df (self w))
  /\ forall later : export,
       fst (call later w') = fst (call later w)
       /\ self (snd (call later w')) = self (snd (call later w)).
Proof.
  cbn zeta.
  pose proof (write_ICs_keeps_self fname xmom ymom temp w) as H.
  split; [exact H|]. split; [rewrite H; reflexivity|].
  intros later. apply call_outcome_by_self. exact H.
Qed.

(** ** The boundary-condition file *)

Example unsorted_world_constructed :
  InternalCoupling.init "out" unsorted_fluxes None (Some (sec 0)) (Some (sec 1))
                        no_files
  = (inr (self unsorted_world), fs unsorted_world).
Proof. vm_compute. reflexivity. Qed.

(** E2E-1 of the spec: three instants of [q], scaled by -1. *)
Example write_BCs_fluxes :
  files (fs (snd (call (BCs "qwall" "q" (-1)%float) fluxes_world))) !! "out/qwall"
  = Some "    (0 -1)
    (1 2)
    (2 -3)
".
Proof. vm_compute. reflexivity. Qed.

(** C5, as the claim states it, fails: the lines follow the rows of the
    bound frame, which need not be ordered by time. Here the file starts with
    the line of the later instant. *)
Lemma write_BCs_not_in_time_order :
  files (fs (snd (call (BCs "qwall" "q" 1%float) unsorted_world))) !! "out/qwall"
  = Some "    (1 10)
    (0 20)
"
  /\ files (fs (snd (call (BCs "qwall" "q" 1%float) unsorted_world))) !! "out/qwall"
     <> BC_text_in_time_order (df (self unsorted_world)) "q" 1%float.
Proof.
  split; [vm_compute; reflexivity|].
  vm_compute. intros H. discriminate H.
Qed.

(** C5, amended. For a bound frame in which the named field is present and
    complete, the boundary-condition export succeeds and its file holds
    exactly one line per row, in the order of the rows of the bound frame
    (the order of time when the rows are so ordered): the row's [t_index] in
    the format [%g] and [fact] times the row's value in the format [%.12g],
    between parentheses, and nothing else. The instance is left as it
    was. *)
Theorem write_BCs_one_line_per_row (fname fieldname : string) (fact : float)
    (w : World) (vs : list float) :
  bound_frame (df (self w)) ->
  Pandas.lookup_column fieldname (columns (df (self w))) = Some vs ->
  Pandas.any_isna vs = false ->
  exists ts,
    Pandas.lookup_column "t_index" (columns (df (self w))) = Some ts
    /\ let lines := zip_with (fun t v => BC_line t (PrimFloat.mul fact v)) ts vs in
       length lines = length (index (df (self w)))
       /\ InternalCoupling.write_BCs fname fieldname fact w
          = (inr tt,
             {| self := self w;
                fs := Os.written (Os.path_join (dpath (self w)) fname)
                                 (String.concat "" lines) (fs w) |}).
Proof.
  intros [Hwf Ht] Hvs Hna.
  destruct (has_column_lookup _ _ Ht) as [ts Hts].
  pose proof (lookup_well_formed _ _ _ Hwf Hts) as Hlt.
  pose proof (lookup_well_formed _ _ _ Hwf Hvs) as Hlv.
  exists ts. split; [exact Hts|]. cbn zeta. split.
  - rewrite length_zip_with, Hlt, Hlv. apply Nat.min_id.
  - apply write_BCs_run; auto. congruence.
Qed.

Lemma write_BCs_one_line_per_row_witness :
  exists ts,
    Pandas.lookup_column "t_index" (columns (df (self fluxes_world))) = Some ts
    /\ let lines :=
         zip_with (fun t v => BC_line t (PrimFloat.mul (-1)%float v)) ts
                  [1; -2; 3]%float in
       length lines = length (index (df (self fluxes_world)))
       /\ InternalCoupling.write_BCs "qwall" "q" (-1)%float fluxes_world
          = (inr tt,
             {| self := self fluxes_world;
                fs := Os.written (Os.path_join (dpath (self fluxes_world)) "qwall")
                                 (String.concat "" lines) (fs fluxes_world) |}).
Proof.
  apply (write_BCs_one_line_per_row "qwall" "q" (-1)%float fluxes_world).
  - apply bound_copy_bound_frame. repeat constructor.
  - reflexivity.
  - reflexivity.
Defined.

(** ** The initial-condition file *)

Example no_heights_world_constructed :
  InternalCoupling.init "out" no_heights None None None no_files
  = (inr (self no_heights_world), fs no_heights_world).
Proof. vm_compute. reflexivity. Qed.

(** C6, as the claim states it, fails: in a frame without a column of
    heights, a present field with a missing value at the start of the window
    does not lead to [IncompleteDataError]; the heights are read first, and
    reading them raises [AttributeError]. *)
Lemma write_ICs_without_heights :
  (exists v,
     Pandas.lookup_column "u" (columns (start_snapshot no_heights_world)) = Some v
     /\ Pandas.any_isna v = true)
  /\ fst (call (ICs "ics" "u" "v" "theta") no_heights_world) = inl AttributeError
  /\ ~ IncompleteDataError AttributeError.
Proof.
  split; [|split].
  - eexists. split; reflexivity.
  - reflexivity.
  - intros [H|[field H]]; discriminate H.
Qed.

(** C6, amended. Take a bound frame with a column of heights and at least
    two rows at the start of the window. Each of the three named fields the
    frame lacks is read as a column of zeros, one per height, and is never a
    reason to fail. If one of the named fields that are present has a
    missing value in the snapshot, the export raises [IncompleteDataError]
    and changes nothing; otherwise it succeeds and writes one line per
    height, with zeros for the absent fields. *)
Theorem write_ICs_zero_fills_absent_fields (fname xmom ymom temp : string)
    (w : World) (zs : list float) :
  let snapshot := start_snapshot w in
  let column := column_or_zeros snapshot in
  well_formed (df (self w)) ->
  (2 <= length (index snapshot))%nat ->
  Pandas.lookup_column "height" (columns snapshot) = Some zs ->
  (forall f,
     Pandas.lookup_column f (columns snapshot) = None ->
     column f = repeat 0%float (length zs) /\ Pandas.any_isna (column f) = false)
  /\ ((exists f v,
         In f [xmom; ymom; temp]
         /\ Pandas.lookup_column f (columns snapshot) = Some v
         /\ Pandas.any_isna v = true) ->
      InternalCoupling.write_ICs fname xmom ymom temp w
      = (inl (AssertionError None), w))
  /\ ((forall f v,
         In f [xmom; ymom; temp] ->
         Pandas.lookup_column f (columns snapshot) = Some v ->
         Pandas.any_isna v = false) ->
      InternalCoupling.write_ICs fname xmom ymom temp w
      = (inr tt,
         {| self := self w;
            fs := Os.written
                    (Os.path_join (dpath (self w)) fname)
                    (String.concat
                       "" (IC_lines zs (column xmom) (column ymom) (column temp)))
                    (fs w) |})).
Proof.
  intros snapshot column Hwf Hrows Hzs.
  pose proof (write_ICs_run fname xmom ymom temp w zs Hwf Hrows Hzs) as Hrun.
  cbn zeta in Hrun. fold (start_snapshot w) in Hrun. fold snapshot in Hrun.
  fold column in Hrun.
  assert (Hlz : length zs = length (index snapshot)).
  { eapply lookup_well_formed; [|exact Hzs].
    apply well_formed_loc_mask. exact Hwf. }
  assert (Habsent : forall f,
             Pandas.lookup_column f (columns snapshot) = None ->
             column f = repeat 0%float (length zs)
             /\ Pandas.any_isna (column f) = false).
  { intros f Hf. unfold column, column_or_zeros. rewrite Hf, Hlz.
    split; [reflexivity|apply zeros_complete]. }
  split; [exact Habsent|]. split.
  - intros (f & v & Hin & Hf & Hna). rewrite Hrun.
    assert (Hcol : Pandas.any_isna (column f) = true)
      by (unfold column, column_or_zeros; rewrite Hf; exact Hna).
    cbn [In] in Hin. destruct Hin as [<-|[<-|[<-|[]]]]; rewrite Hcol;
      rewrite ?orb_true_r; reflexivity.
  - intros Hall. rewrite Hrun.
    assert (Hcol : forall f, In f [xmom; ymom; temp] ->
                             Pandas.any_isna (column f) = false).
    { intros f Hin.
      destruct (Pandas.lookup_column f (columns snapshot)) as [v|] eqn:Hf.
      - unfold column, column_or_zeros. rewrite Hf. eapply Hall; eauto.
      - apply Habsent. exact Hf. }
    rewrite !Hcol by (cbn [In]; auto). reflexivity.
Qed.

(** E2E-2 of the spec: [v] is absent and reads as zeros. *)
Lemma write_ICs_zero_fills_absent_fields_witness :
  Pandas.lookup_column "v" (columns (start_snapshot profiles_world)) = None
  /\ files (fs (snd (InternalCoupling.write_ICs "ics" "u" "v" "theta" profiles_world)))
       !! "out/ics"
     = Some "    (0 1 0 300)
    (10 2 0 299)
    (20 3 0 298)
".
Proof.
  split; [reflexivity|].
  destruct (write_ICs_zero_fills_absent_fields
              "ics" "u" "v" "theta" profiles_world [0; 10; 20]%float)
    as (_ & _ & Hok).
  - repeat constructor.
  - vm_compute. repeat constructor.
  - reflexivity.
  - rewrite Hok; [vm_compute; reflexivity|].
    intros f v [<-|[<-|[<-|[]]]] H; vm_compute in H; inversion H; reflexivity.
Defined.

(** ** The time-height file *)

Example descending_world_constructed :
  InternalCoupling.init "out" descending_heights None None None no_files
  = (inr (self descending_world), fs descending_world).
Proof. vm_compute. reflexivity. Qed.

(** The file for two instants of three heights, with [v] and [w] absent. *)
Example write_timeheight_profiles :
  files (fs (snd (call (TimeHeight "forcing" (Some "u") (Some "v") (Some "w") None)
                       profiles_world))) !! "out/forcing"
  = Some "sourceHeightsMomentum
(
    0
    10
    20
);

sourceTableMomentumX
(
    (60 1 2 3)
    (120 4 5 6)
);

sourceTableMomentumY
(
    (60 0 0 0)
    (120 0 0 0)
);

sourceTableMomentumZ
(
    (60 0 0 0)
    (120 0 0 0)
);

".
Proof. vm_compute. reflexivity. Qed.

Example winds_world_constructed :
  InternalCoupling.init "out" winds None None None no_files
  = (inr (self winds_world), fs winds_world).
Proof. vm_compute. reflexivity. Qed.

(** The file for two instants and two heights in ascending order. *)
Example write_timeheight_winds :
  files (fs (snd (call (TimeHeight "forcing" (Some "u") (Some "v") (Some "w") None)
                       winds_world))) !! "out/forcing"
  = Some "sourceHeightsMomentum
(
    0
    10
);

sourceTableMomentumX
(
    (0 1 2)
    (600 3 4)
);

sourceTableMomentumY
(
    (0 5 6)
    (600 7 8)
);

sourceTableMomentumZ
(
    (0 0 0)
    (600 0 0)
);

".
Proof. vm_compute. reflexivity. Qed.

(** C4 on the code. The frame lists the level 10 before the level 0, with
    [u] = 1 at 10 and [u] = 2 at 0. The block of heights lists the heights as
    they first appear, 10 then 0, and not in ascending order; the tables hold
    their columns by ascending height, the value at 0 first. So the file
    pairs the height 10 with the values at 0. *)
Theorem write_timeheight_heights_as_they_appear :
  call (TimeHeight "forcing" (Some "u") (Some "v") (Some "w") None) descending_world
  = (inr tt,
     {| self := self descending_world;
        fs := Os.written "out/forcing" "sourceHeightsMomentum
(
    10
    0
);

sourceTableMomentumX
(
    (0 2 1)
);

sourceTableMomentumY
(
    (0 4 3)
);

sourceTableMomentumZ
(
    (0 6 5)
);

" (fs descending_world) |}).
Proof. vm_compute. reflexivity. Qed.

(** * Further properties of the class *)

(** ** The constructor and the file system *)

Section KeepsState.
Context {S A B : Type}.




End KeepsState.



Lemma bind_isdir {A} (p : string) (k : bool -> M FileSystem A) (s : FileSystem) :
  bind (Os.isdir p) k s = k (bool_decide (p ∈ dirs s)) s.
Proof. reflexivity. Qed.



(** ** The window and the time base *)

Lemma filter_none {A} (p : A -> bool) (l : list A) :
  (forall x, In x l -> p x = false) -> List.filter p l = [].
Proof.
  induction l as [|x l IH]; intros H; cbn [List.filter]; [reflexivity|].
  rewrite (H x) by (left; reflexivity). apply IH. intros y Hy. apply H. right. exact Hy.
Qed.

Lemma fst_bind_ret_map {S A B} (c : M S A) (f : A -> B) (s : S) :
  fst (bind c (fun a => ret (f a)) s)
  = match fst (c s) with
    | inl e => inl e
    | inr a => inr (f a)
    end.
Proof. unfold bind. destruct (c s) as [[e|a] s']; reflexivity. Qed.

(** The constructor past its window: the derivation of [t_index] on the
    selected rows decides the outcome. *)
Lemma init_derive (dpath : string) (d : DataFrame)
    (dateref datefrom dateto : option Z) (s : FileSystem) (a b : Z) :
  window d datefrom dateto = Some (a, b) ->
  List.filter (in_window a b) (index d) <> [] ->
  exists s',
    fst (InternalCoupling.init dpath d dateref datefrom dateto s)
    = match fst (derive_t_index
                   dateref (Pandas.loc_mask d (map (in_window a b) (index d))) s') with
      | inl e => inl e
      | inr bound => inr {| dpath := dpath; df := bound; datefrom := a |}
      end.
Proof.
  intros Hw Hne. unfold InternalCoupling.init.
  set (rest := fun _ : unit => bind _ _).
  exists (snd ((is_dir <- Os.isdir dpath ;;
                (if negb is_dir then Os.mkdir dpath else ret tt))%py s)).
  rewrite bind_isdir.
  assert (Hgo : forall s0,
             fst (rest tt s0)
             = match fst (derive_t_index
                            dateref
                            (Pandas.loc_mask d (map (in_window a b) (index d))) s0) with
               | inl e => inl e
               | inr bound => inr {| dpath := dpath; df := bound; datefrom := a |}
               end).
  { intros s0. subst rest. cbn beta. unfold window in Hw.
    unfold Pandas.index_first, Pandas.index_last, Pandas.copy.
    destruct datefrom as [a'|]; [|destruct (head (index d)) as [a'|]];
      try discriminate Hw;
      (destruct dateto as [b'|]; [|destruct (last (index d)) as [b'|]]);
      try discriminate Hw; injection Hw as -> ->.
    all: rewrite ?bind_ret, ?bind_lift_inr, ?bind_ret, mask_and_window.
    all: rewrite length_unique_pos.
    all: change (index (Pandas.loc_mask d (map (in_window a b) (index d))))
           with (Pandas.take_mask (map (in_window a b) (index d)) (index d)).
    all: rewrite take_mask_map.
    all: destruct (List.filter (in_window a b) (index d)); [contradiction|].
    all: cbn [negb]; rewrite bind_assert_true.
    all: rewrite fst_bind_ret_map; reflexivity. }
  unfold bind, Os.isdir, Os.mkdir, modify, ret.
  destruct (bool_decide (dpath ∈ dirs s)); cbn [negb fst snd]; apply Hgo.
Qed.

(** X2. With both endpoints of the window left out, the constructor raises
    [EmptyWindowError] exactly when the last label of the data is earlier than
    the first one: on data whose labels are not in ascending order the
    default window can be empty although the data are not. *)
Theorem init_default_window (dpath : string) (d : DataFrame) (dateref : option Z)
    (s : FileSystem) (first final : Z) :
  head (index d) = Some first ->
  last (index d) = Some final ->
  fst (InternalCoupling.init dpath d dateref None None s) = inl EmptyWindowError
  <-> final < first.
Proof.
  intros Hfirst Hlast.
  pose proof (init_cases dpath d dateref None None s) as H.
  cbn zeta in H. unfold window in H. rewrite Hfirst, Hlast in H.
  destruct (Z.ltb_spec final first) as [Hlt|Hge].
  - rewrite filter_none in H; [tauto|].
    intros l _. unfold in_window.
    destruct (Z.leb_spec first l), (Z.leb_spec l final); cbn [andb]; try reflexivity.
    lia.
  - destruct (index d) as [|l0 ls] eqn:Hidx; [discriminate Hfirst|].
    cbn [head] in Hfirst. injection Hfirst as ->.
    cbn [List.filter] in H. unfold in_window at 1 in H.
    rewrite Z.leb_refl in H. cbn [andb] in H.
    destruct (Z.leb_spec first final); [|lia].
    split; [|lia]. intros Hrun. exfalso.
    destruct (time_base dateref d).
    + rewrite Hrun in H. discriminate H.
    + destruct H as (e & He & Hna). rewrite Hrun in He.
      injection He as <-. exact (Hna _ eq_refl).
Qed.

Lemma init_default_window_witness :
  fst (InternalCoupling.init "out" unsorted_fluxes None None None no_files)
  = inl EmptyWindowError
  <-> sec 0 < sec 1.
Proof.
  apply (init_default_window "out" unsorted_fluxes None no_files (sec 1) (sec 0));
    reflexivity.
Defined.

(** X3. When the index does not fit the time base, the constructor raises
    after the window has been selected: without a reference instant, an index
    of timestamps has no [total_seconds] ([AttributeError]); with a reference
    instant, an index that is not called [datetime] leaves no column of that
    name to subtract from ([KeyError]), and an index of durations called
    [datetime] cannot be subtracted from a timestamp ([TypeError]). *)
Theorem init_time_base_mismatch (dpath : string) (d : DataFrame)
    (dateref datefrom dateto : option Z) (s : FileSystem) (a b : Z) :
  window d datefrom dateto = Some (a, b) ->
  List.filter (in_window a b) (index d) <> [] ->
  let run := fst (InternalCoupling.init dpath d dateref datefrom dateto s) in
  (dateref = None -> kind d = DatetimeIndex -> run = inl AttributeError)
  /\ (forall r n,
        dateref = Some r -> name d = Some n -> n <> "datetime" ->
        Pandas.has_column n d = false ->
        Pandas.has_column "datetime" d = false ->
        run = inl KeyError)
  /\ (forall r,
        dateref = Some r -> name d = Some "datetime" ->
        kind d = TimedeltaIndex ->
        Pandas.has_column "datetime" d = false ->
        run = inl TypeError).
Proof.
  intros Hw Hne run.
  destruct (init_derive dpath d dateref datefrom dateto s a b Hw Hne) as [s' Hrun].
  fold run in Hrun. rewrite Hrun. clear Hrun run.
  set (bound := Pandas.loc_mask d (map (in_window a b) (index d))).
  assert (Hcol : forall c, Pandas.has_column c bound = Pandas.has_column c d)
    by (intros c; apply has_column_loc_mask).
  split; [|split].
  - intros -> Hk. unfold derive_t_index, Pandas.total_seconds.
    change (kind bound) with (kind d). rewrite Hk. reflexivity.
  - intros r n -> Hn Hnd Hnc Hdc.
    unfold derive_t_index, Pandas.reset_index.
    change (name bound) with (name d). rewrite Hn, Hcol, Hnc.
    cbn zeta. rewrite bind_lift_inr.
    unfold Pandas.range_getitem. cbn [Pandas.lookup_column].
    apply String.eqb_neq in Hnd. rewrite String.eqb_sym, Hnd.
    rewrite lookup_column_floats.
    rewrite (lookup_column_absent "datetime" (columns bound))
      by (rewrite <- Hcol in Hdc; exact Hdc).
    reflexivity.
  - intros r -> Hn Hk Hdc.
    unfold derive_t_index, Pandas.reset_index.
    change (name bound) with (name d). change (kind bound) with (kind d).
    rewrite Hn, Hk, Hcol, Hdc. cbn zeta. rewrite bind_lift_inr.
    unfold Pandas.range_getitem. cbn [Pandas.lookup_column].
    rewrite String.eqb_refl. reflexivity.
Qed.

Lemma init_time_base_mismatch_witness :
  fst (InternalCoupling.init "out" profiles None None None no_files)
  = inl AttributeError
  /\ fst (InternalCoupling.init "out" surface_fluxes (Some (sec 0)) None None no_files)
     = inl KeyError.
Proof.
  split.
  - apply (init_time_base_mismatch "out" profiles None None None no_files
             (sec 100) (sec 160)); [reflexivity|discriminate|reflexivity|reflexivity].
  - destruct (init_time_base_mismatch "out" surface_fluxes (Some (sec 0)) None None
                no_files (sec 0) (sec 2)) as (_ & Hkey & _);
      [reflexivity|discriminate|].
    apply (Hkey (sec 0) "t"); try reflexivity. discriminate.
Defined.

(** ** The start of the window and the snapshot *)

Lemma index_bound_copy (d : DataFrame) (dateref : option Z) (a b : Z) :
  index (bound_copy d dateref a b) = List.filter (in_window a b) (index d).
Proof.
  unfold bound_copy, Pandas.setitem, Pandas.loc_mask. cbn [index].
  apply take_mask_map.
Qed.

Lemma index_start_snapshot (w : World) :
  index (start_snapshot w)
  = List.filter (fun l => l =? datefrom (self w)) (index (df (self w))).
Proof.
  unfold start_snapshot, Pandas.loc_mask, Pandas.index_eq. cbn [index].
  apply take_mask_map.
Qed.

(** X4. When the start of the window is left out and the constructor
    returns, the start it records is the label of a row of the bound frame:
    the snapshot the initial-condition export takes is not empty. *)
Theorem init_default_start_is_bound (dpath : string) (d : DataFrame)
    (dateref dateto : option Z) (s : FileSystem) (w : Writer) :
  fst (InternalCoupling.init dpath d dateref None dateto s) = inr w ->
  head (index d) = Some (datefrom w)
  /\ In (datefrom w) (index (df w))
  /\ index (start_snapshot {| self := w; fs := s |}) <> [].
Proof.
  intros Hrun.
  pose proof (init_cases dpath d dateref None dateto s) as H.
  cbn zeta in H. rewrite Hrun in H. unfold window in H.
  destruct (head (index d)) as [a|] eqn:Hhead;
    [|destruct dateto; discriminate H].
  assert (Hb : exists b, window d None dateto = Some (a, b)).
  { unfold window. rewrite Hhead.
    destruct dateto as [b|]; [exists b; reflexivity|].
    destruct (last (index d)) as [b|]; [exists b; reflexivity|discriminate H]. }
  destruct Hb as [b Hb]. unfold window in Hb. rewrite Hhead in Hb.
  rewrite Hb in H. clear Hb.
  destruct (List.filter (in_window a b) (index d)) as [|l ls] eqn:Hsel;
    [discriminate H|].
  destruct (time_base dateref d); [|destruct H as (e & He & _); discriminate He].
  injection H as ->. cbn [datefrom df].
  assert (Hin : In a (List.filter (in_window a b) (index d))).
  { apply filter_In. split.
    - destruct (index d) as [|x xs]; [discriminate Hhead|].
      injection Hhead as ->. left. reflexivity.
    - assert (Hl : In l (List.filter (in_window a b) (index d)))
        by (rewrite Hsel; left; reflexivity).
      apply filter_In in Hl as [_ Hl]. unfold in_window in *.
      apply andb_prop in Hl as [H1 H2].
      apply Z.leb_le in H1, H2. rewrite Z.leb_refl. cbn [andb].
      apply Z.leb_le. lia. }
  split; [reflexivity|]. rewrite index_bound_copy. split; [exact Hin|].
  rewrite index_start_snapshot. cbn [self datefrom df]. rewrite index_bound_copy.
  intros Hnil.
  assert (Hin' : In a (List.filter (fun l0 => l0 =? a)
                                   (List.filter (in_window a b) (index d))))
    by (apply filter_In; split; [exact Hin|apply Z.eqb_refl]).
  rewrite Hnil in Hin'. exact Hin'.
Qed.

Lemma init_default_start_is_bound_witness :
  head (index profiles) = Some (datefrom (self profiles_world))
  /\ In (datefrom (self profiles_world)) (index (df (self profiles_world)))
  /\ index (start_snapshot {| self := self profiles_world; fs := no_files |}) <> [].
Proof.
  apply (init_default_start_is_bound "out" profiles (Some (sec 40)) None no_files).
  reflexivity.
Defined.

(** X5. The initial-condition export needs at least two rows at the start
    of the window. When no row of the bound frame carries the label
    [datefrom], as can happen when the start was given and is not a label of
    the data, [df.loc] raises [KeyError]; when a single row does, [df.loc]
    returns that row as a [Series], which has no [columns], and the export
    raises [AttributeError]. In both cases nothing is written and the
    instance is as it was. *)
Theorem write_ICs_snapshot_errors (fname xmom ymom temp : string) (w : World) :
  (~ In (datefrom (self w)) (index (df (self w))) ->
   InternalCoupling.write_ICs fname xmom ymom temp w = (inl KeyError, w))
  /\ (length (index (start_snapshot w)) = 1%nat ->
      InternalCoupling.write_ICs fname xmom ymom temp w = (inl AttributeError, w)).
Proof.
  split.
  - intros Hno. unfold InternalCoupling.write_ICs. rewrite bind_get_self.
    unfold Pandas.loc_label. cbn zeta. fold (start_snapshot w).
    rewrite index_start_snapshot.
    rewrite filter_none; [reflexivity|].
    intros l Hl. apply Z.eqb_neq. intros ->. contradiction.
  - intros Hone. unfold InternalCoupling.write_ICs. rewrite bind_get_self.
    unfold Pandas.loc_label. cbn zeta. fold (start_snapshot w).
    destruct (index (start_snapshot w)) as [|l [|l' ls]]; try discriminate Hone.
    reflexivity.
Qed.

Lemma write_ICs_snapshot_errors_witness :
  InternalCoupling.write_ICs "ics" "u" "v" "theta" fluxes_world
  = (inl AttributeError, fluxes_world).
Proof.
  apply (write_ICs_snapshot_errors "ics" "u" "v" "theta" fluxes_world).
  reflexivity.
Defined.

(** ** The invariant of the bound frame *)

Lemma grows_bound_frame (fields : list string) (d d' : DataFrame) :
  grows fields d d' -> bound_frame d -> bound_frame d'.
Proof.
  intros (_ & _ & Hi & added & Hc & _) [Hwf Ht]. split.
  - unfold well_formed in *. rewrite Hc, Hi. apply Forall_app. split; [exact Hwf|].
    clear. induction added as [|f added IH]; cbn [map]; constructor;
      [apply repeat_length|exact IH].
  - unfold Pandas.has_column in *. rewrite Hc, map_app, existsb_app, Ht.
    reflexivity.
Qed.

(** X6. Every column of the frame an instance holds has one cell per row,
    [t_index] among them: the constructor establishes this on well-formed
    data, and every export keeps it, whatever its outcome. *)
Theorem bound_frame_invariant :
  (forall dpath d dateref datefrom dateto s w,
     well_formed d ->
     fst (InternalCoupling.init dpath d dateref datefrom dateto s) = inr w ->
     bound_frame (df w))
  /\ (forall e w,
        bound_frame (df (self w)) -> bound_frame (df (self (snd (call e w))))).
Proof.
  split.
  - intros dpath d dateref datefrom dateto s w Hwf Hrun.
    eapply init_bound_frame; eauto.
  - intros [fname fieldname fact|fname xmom ymom temp|fname xmom ymom zmom temp] w H;
      cbn [call].
    + rewrite write_BCs_keeps_self. exact H.
    + rewrite write_ICs_keeps_self. exact H.
    + destruct (write_timeheight_only_grows fname xmom ymom zmom temp w)
        as (_ & _ & Hg).
      exact (grows_bound_frame _ _ _ Hg H).
Qed.

Lemma bound_frame_invariant_witness :
  bound_frame
    (df (self (snd (call (TimeHeight "forcing" (Some "u") (Some "v") (Some "w") None)
                         profiles_world)))).
Proof.
  apply (proj2 bound_frame_invariant).
  apply bound_copy_bound_frame. repeat constructor.
Defined.

(** ** The files an export touches *)

Section TouchesOnly.
Context (dp p : string).

Lemma touches_only_kept {A} (c : M World A) :
  keeps_self c -> keeps_fs c -> touches_only dp p c.
Proof.
  intros Hs Hf w Hdp. split; [rewrite Hs; exact Hdp|].
  split; [rewrite Hf; reflexivity|intros q _; rewrite Hf; reflexivity].
Qed.

Lemma touches_only_bind {A B} (c : M World A) (k : A -> M World B) :
  touches_only dp p c -> (forall a, touches_only dp p (k a)) ->
  touches_only dp p (bind c k).
Proof.
  intros Hc Hk w Hdp. unfold bind. destruct (Hc w Hdp) as (Hd & Hdirs & Hfiles).
  destruct (c w) as [[e|a] w']; cbn [snd] in *; [auto|].
  destruct (Hk a w' Hd) as (Hd' & Hdirs' & Hfiles').
  split; [exact Hd'|]. split; [congruence|].
  intros q Hq. rewrite Hfiles', Hfiles; auto.
Qed.

Lemma touches_only_get_self {B} (k : Writer -> M World B) :
  (forall me, dpath me = dp -> touches_only dp p (k me)) ->
  touches_only dp p (bind get_self k).
Proof. intros Hk w Hdp. rewrite bind_get_self. apply Hk; exact Hdp. Qed.

Lemma touches_only_open {B} (k : string -> M World B) :
  touches_only dp p (k p) -> touches_only dp p (bind (on_fs (Os.open_w p)) k).
Proof.
  intros Hk w Hdp. rewrite bind_open_w.
  destruct (Hk {| self := self w; fs := Os.written p "" (fs w) |} Hdp)
    as (Hd & Hdirs & Hfiles).
  split; [exact Hd|]. split; [exact Hdirs|].
  intros q Hq. rewrite (Hfiles q Hq). cbn [fs Os.written files].
  apply lookup_insert_ne. congruence.
Qed.

Lemma touches_only_write (text : string) :
  touches_only dp p (on_fs (Os.write p text)).
Proof.
  intros w Hdp. unfold on_fs, Os.write, modify, Os.appended, Os.written.
  cbn [snd self fs dirs files]. split; [exact Hdp|]. split; [reflexivity|].
  intros q Hq. apply lookup_insert_ne. congruence.
Qed.

Lemma touches_only_for_each {A} (l : list A) (body : A -> M World unit) :
  (forall x, touches_only dp p (body x)) -> touches_only dp p (for_each l body).
Proof.
  intros Hb. induction l as [|x l IH]; cbn [for_each].
  - apply touches_only_kept; auto with frames.
  - apply touches_only_bind; auto.
Qed.

Lemma touches_only_set_df (d : DataFrame) : touches_only dp p (set_df d).
Proof. intros w Hdp. cbn. auto. Qed.
End TouchesOnly.

Lemma savetxt_as_writes (fid : string) (X : ndarray) (fmt : list conversion)
    (header footer : string) (s : FileSystem) :
  dirs (snd (savetxt fid X fmt header footer s)) = dirs s
  /\ forall q, q <> fid ->
               files (snd (savetxt fid X fmt header footer s)) !! q = files s !! q.
Proof.
  assert (Hw : forall text s0,
             dirs (snd (Os.write fid text s0)) = dirs s0
             /\ forall q, q <> fid ->
                          files (snd (Os.write fid text s0)) !! q = files s0 !! q).
  { intros text s0. unfold Os.write, modify, Os.appended, Os.written.
    cbn [snd dirs files]. split; [reflexivity|].
    intros q Hq. apply lookup_insert_ne. congruence. }
  assert (Hrows : forall (M0 : list (list float)) s0,
             dirs (snd (for_each M0 (fun row => Os.write fid (Numpy.format_row fmt row)) s0))
             = dirs s0
             /\ forall q, q <> fid ->
                  files (snd (for_each M0
                                (fun row => Os.write fid (Numpy.format_row fmt row)) s0))
                    !! q
                  = files s0 !! q).
  { induction M0 as [|row M0 IH]; intros s0; cbn [for_each].
    - split; reflexivity.
    - unfold bind.
      destruct (Hw (Numpy.format_row fmt row) s0) as [Hd0 Hf0].
      destruct (Os.write fid (Numpy.format_row fmt row) s0) as [[e|[]] s1];
        cbn [snd] in *; [split; assumption|].
      destruct (IH s1) as [Hd Hf].
      split; [congruence|].
      intros q Hq. rewrite (Hf q Hq). apply Hf0. exact Hq. }
  unfold savetxt. destruct (negb _); [split; reflexivity|].
  unfold bind.
  set (s1 := snd ((if String.eqb header "" then ret tt
                   else Os.write fid (header +:+ Numpy.newline)) s)).
  assert (H1 : dirs s1 = dirs s /\ forall q, q <> fid -> files s1 !! q = files s !! q).
  { subst s1. destruct (String.eqb header ""); [split; reflexivity|apply Hw]. }
  assert (E1 : (if String.eqb header "" then ret tt
                else Os.write fid (header +:+ Numpy.newline)) s = (inr tt, s1)).
  { subst s1. destruct (String.eqb header ""); reflexivity. }
  rewrite E1.
  destruct (Hrows (data X) s1) as [Hd2 Hf2].
  destruct (for_each (data X) _ s1) as [[e|[]] s2] eqn:E2; cbn [snd] in *.
  - destruct H1 as [Hd1 Hf1]. split; [congruence|].
    intros q Hq. rewrite Hf2, Hf1; auto.
  - destruct H1 as [Hd1 Hf1].
    destruct (String.eqb footer "").
    + cbn [ret snd]. split; [congruence|]. intros q Hq. rewrite Hf2, Hf1; auto.
    + destruct (Hw (footer +:+ Numpy.newline) s2) as [Hd3 Hf3].
      split; [congruence|]. intros q Hq. rewrite Hf3, Hf2, Hf1; auto.
Qed.

Lemma touches_only_savetxt (dp p : string) (X : ndarray) (fmt : list conversion)
    (header footer : string) :
  touches_only dp p (on_fs (savetxt p X fmt header footer)).
Proof.
  intros w Hdp. unfold on_fs.
  destruct (savetxt_as_writes p X fmt header footer (fs w)) as [Hd Hf].
  destruct (savetxt p X fmt header footer (fs w)) as [r s']. cbn [snd self fs] in *.
  auto.
Qed.

Ltac touch_step :=
  match goal with
  | |- touches_only _ _ (bind get_self _) =>
      let me := fresh "me" in
      let Hme := fresh "Hme" in
      apply touches_only_get_self; intros me Hme; rewrite ?Hme
  | |- touches_only _ _ (bind (on_fs (Os.open_w _)) _) => apply touches_only_open
  | |- touches_only _ _ (bind _ _) => apply touches_only_bind; [|intros ?]
  | |- touches_only _ _ (for_each _ _) => apply touches_only_for_each; intros ?
  | |- touches_only _ _ (on_fs (Os.write _ _)) => apply touches_only_write
  | |- touches_only _ _ (on_fs (savetxt _ _ _ _ _)) => apply touches_only_savetxt
  | |- touches_only _ _ (set_df _) => apply touches_only_set_df
  | |- touches_only _ _ (match ?x with _ => _ end) => destruct x
  | |- touches_only _ _ _ => apply touches_only_kept; solve [repeat frame_step]
  end.

Lemma call_touches_only (e : export) (dp : string) :
  touches_only dp
               (Os.path_join dp match e with
                                | BCs fname _ _ => fname
                                | ICs fname _ _ _ => fname
                                | TimeHeight fname _ _ _ _ => fname
                                end)
               (call e).
Proof.
  destruct e; cbn [call];
    unfold InternalCoupling.write_BCs, InternalCoupling.write_ICs,
      InternalCoupling.write_timeheight, InternalCoupling.write_table,
      InternalCoupling.write_heights, InternalCoupling.zero_fill_self;
    cbn zeta; repeat touch_step.
Qed.

(** X7. An export changes no directory and no file other than its own
    output file, [os.path.join(self.dpath, fname)], whatever its outcome. *)
Theorem export_touches_only_its_file (e : export) (w : World) :
  dirs (fs (snd (call e w))) = dirs (fs w)
  /\ forall q,
       q <> output_path e w ->
       files (fs (snd (call e w))) !! q = files (fs w) !! q.
Proof.
  destruct (call_touches_only e (dpath (self w)) w eq_refl) as (_ & Hd & Hf).
  split; [exact Hd|exact Hf].
Qed.

(** ** Validation in the boundary-condition export *)

Lemma write_BCs_missing (fname fieldname : string) (fact : float) (w : World)
    (ts : list float) :
  Pandas.lookup_column "t_index" (columns (df (self w))) = Some ts ->
  Pandas.has_column fieldname (df (self w)) = false ->
  InternalCoupling.write_BCs fname fieldname fact w
  = (inl (MissingFieldError fieldname), w).
Proof.
  intros Hts Hno. unfold InternalCoupling.write_BCs. rewrite bind_get_self.
  unfold Pandas.getattr. rewrite Hts, bind_lift_inr. cbn zeta.
  rewrite Hno. reflexivity.
Qed.

Lemma write_BCs_incomplete (fname fieldname : string) (fact : float) (w : World)
    (ts values : list float) :
  Pandas.lookup_column "t_index" (columns (df (self w))) = Some ts ->
  Pandas.lookup_column fieldname (columns (df (self w))) = Some values ->
  Pandas.any_isna values = true ->
  InternalCoupling.write_BCs fname fieldname fact w
  = (inl (AssertionError (Some (msg_not_complete fieldname))), w).
Proof.
  intros Hts Hf Hna. unfold InternalCoupling.write_BCs. rewrite bind_get_self.
  unfold Pandas.getattr, Pandas.getitem. rewrite Hts, Hf, bind_lift_inr. cbn zeta.
  rewrite (lookup_has_column _ _ _ Hf), bind_assert_true, bind_lift_inr.
  rewrite Hna. reflexivity.
Qed.

Lemma lookup_none_has_column (c : string) (d : DataFrame) :
  Pandas.lookup_column c (columns d) = None -> Pandas.has_column c d = false.
Proof.
  intros Hf. destruct (Pandas.has_column c d) eqn:Hc; [|reflexivity].
  apply has_column_lookup in Hc as [v Hv]. congruence.
Qed.

(** X8. On a frame with its [t_index], the boundary-condition export
    checks the field before anything else: a field the frame lacks raises
    [MissingFieldError] with the message ["Field <name> not in df"], a field
    with a missing value raises the assertion ["Field <name> is not complete
    (contains NaNs)"]. In both cases the world is as it was. *)
Theorem write_BCs_validation (fname fieldname : string) (fact : float) (w : World)
    (ts : list float) :
  Pandas.lookup_column "t_index" (columns (df (self w))) = Some ts ->
  match Pandas.lookup_column fieldname (columns (df (self w))) with
  | None =>
      InternalCoupling.write_BCs fname fieldname fact w
      = (inl (MissingFieldError fieldname), w)
  | Some values =>
      Pandas.any_isna values = true ->
      InternalCoupling.write_BCs fname fieldname fact w
      = (inl (AssertionError (Some (msg_not_complete fieldname))), w)
  end.
Proof.
  intros Hts.
  destruct (Pandas.lookup_column fieldname (columns (df (self w)))) as [values|] eqn:Hf.
  - intros Hna. eapply write_BCs_incomplete; eauto.
  - eapply write_BCs_missing; eauto. apply lookup_none_has_column. exact Hf.
Qed.

Lemma write_BCs_validation_witness :
  InternalCoupling.write_BCs "qwall" "u" 1%float no_heights_world
  = (inl (AssertionError (Some (msg_not_complete "u"))), no_heights_world)
  /\ InternalCoupling.write_BCs "qwall" "flux" 1%float no_heights_world
     = (inl (MissingFieldError "flux"), no_heights_world).
Proof.
  split.
  - apply (write_BCs_validation "qwall" "u" 1%float no_heights_world
             (map (elapsed None) [sec 0; sec 0]) eq_refl).
    reflexivity.
  - exact (write_BCs_validation "qwall" "flux" 1%float no_heights_world
             (map (elapsed None) [sec 0; sec 0]) eq_refl).
Defined.

(** ** Zero columns added by the time-height export *)

Lemma with_df_same (w : World) :
  {| self := with_df (self w) (df (self w)); fs := fs w |} = w.
Proof. destruct w as [[dp d a] s]. reflexivity. Qed.

Lemma zero_fill_loop (fields : list (option string)) :
  forall w,
    for_each fields InternalCoupling.zero_fill_self w
    = (inr tt,
       {| self := with_df (self w)
                          (InternalCoupling.zero_fill (omap id fields) (df (self w)));
          fs := fs w |}).
Proof.
  induction fields as [|[f|] fields IH]; intros w; cbn [for_each].
  - change (omap id []) with (@nil string). unfold InternalCoupling.zero_fill.
    cbn [fold_left]. rewrite with_df_same. reflexivity.
  - change (omap id (Some f :: fields)) with (f :: omap id fields).
    unfold InternalCoupling.zero_fill. cbn [fold_left].
    fold (InternalCoupling.zero_fill (omap id fields)).
    unfold InternalCoupling.zero_fill_self at 1. unfold bind at 1.
    rewrite bind_get_self.
    destruct (negb (Pandas.has_column f (df (self w)))).
    + unfold set_df, modify. rewrite IH. reflexivity.
    + unfold ret. rewrite IH. reflexivity.
  - change (omap id (None :: fields)) with (omap id fields).
    unfold InternalCoupling.zero_fill_self at 1. unfold bind at 1.
    rewrite bind_get_self. unfold ret. apply IH.
Qed.

(** The instance after a time-height export that passed the check of the
    momentum components and found its heights and times. *)
Lemma write_timeheight_self (fname : string) (xmom ymom zmom temp : option string)
    (w : World) (heights ts : list float) :
  incomplete_momentum xmom ymom zmom = false ->
  Pandas.lookup_column "height" (columns (df (self w))) = Some heights ->
  Pandas.lookup_column "t_index" (columns (df (self w))) = Some ts ->
  self (snd (InternalCoupling.write_timeheight fname xmom ymom zmom temp w))
  = with_df (self w)
            (InternalCoupling.zero_fill (omap id [xmom; ymom; zmom; temp])
                                        (df (self w))).
Proof.
  intros Hm Hh Ht. unfold InternalCoupling.write_timeheight.
  destruct xmom, ymom, zmom; try discriminate Hm; clear Hm;
    cbn [map InternalCoupling.is_not_None existsb forallb id orb andb];
    cbn zeta; rewrite ?bind_assert_true, ?bind_ret, bind_get_self;
    unfold Pandas.getattr; rewrite Hh, Ht, !bind_lift_inr.
  all: rewrite (bind_run _ _ _ _ _ (zero_fill_loop _ w)).
  all: match goal with
       | |- self (snd (?rest ?w1)) = _ =>
           assert (Hk : keeps_self rest) by (repeat frame_step);
           rewrite Hk; reflexivity
       end.
Qed.

(** X9. Past the check of the momentum components, on a frame with its
    heights and its [t_index], the time-height export leaves in the instance
    exactly the bound frame zero-filled for the names it was given, in the
    order [xmom], [ymom], [zmom], [temp]: the loop that sets missing fields
    to zero has run completely, whether the call then succeeds or raises. *)
Theorem write_timeheight_zero_fills (fname : string)
    (xmom ymom zmom temp : option string) (w : World) (heights ts : list float) :
  incomplete_momentum xmom ymom zmom = false ->
  Pandas.lookup_column "height" (columns (df (self w))) = Some heights ->
  Pandas.lookup_column "t_index" (columns (df (self w))) = Some ts ->
  let w' := snd (InternalCoupling.write_timeheight fname xmom ymom zmom temp w) in
  dpath (self w') = dpath (self w)
  /\ datefrom (self w') = datefrom (self w)
  /\ df (self w')
     = InternalCoupling.zero_fill (omap id [xmom; ymom; zmom; temp]) (df (self w)).
Proof.
  intros Hm Hh Ht. cbn zeta.
  rewrite (write_timeheight_self fname xmom ymom zmom temp w heights ts Hm Hh Ht).
  repeat split.
Qed.

Lemma write_timeheight_zero_fills_witness :
  map fst (columns (df (self (snd (InternalCoupling.write_timeheight
                                     "forcing" (Some "u") (Some "v") (Some "w") None
                                     profiles_world)))))
  = ["height"; "u"; "theta"; "t_index"; "v"; "w"].
Proof.
  destruct (write_timeheight_zero_fills
              "forcing" (Some "u") (Some "v") (Some "w") None profiles_world
              [0; 10; 20; 0; 10; 20]%float
              (map (elapsed (Some (sec 40)))
                   [sec 100; sec 100; sec 100; sec 160; sec 160; sec 160])
              eq_refl eq_refl eq_refl) as (_ & _ & Hdf).
  rewrite Hdf. reflexivity.
Defined.

(** ** The order of the exports matters *)

(** X10. On a bound frame with a column of heights, take a field the frame
    lacks. The boundary-condition export of that field raises
    [MissingFieldError]. After a time-height export that names the field as
    [temp], whatever its outcome, the frame has the field as a column of
    zeros, and the same boundary-condition export succeeds. *)
Theorem write_BCs_after_write_timeheight (fname fname' field : string)
    (fact : float) (w : World) :
  bound_frame (df (self w)) ->
  Pandas.has_column "height" (df (self w)) = true ->
  Pandas.has_column field (df (self w)) = false ->
  let w' := snd (InternalCoupling.write_timeheight
                   fname' None None None (Some field) w) in
  InternalCoupling.write_BCs fname field fact w = (inl (MissingFieldError field), w)
  /\ Pandas.getitem field (df (self w'))
     = inr (repeat 0%float (length (index (df (self w)))))
  /\ fst (InternalCoupling.write_BCs fname field fact w') = inr tt.
Proof.
  intros [Hwf Ht] Hh Hno. cbn zeta.
  apply has_column_lookup in Ht as [ts Hts].
  apply has_column_lookup in Hh as [heights Hhs].
  split; [eapply write_BCs_missing; eauto|].
  set (w' := snd (InternalCoupling.write_timeheight fname' None None None (Some field) w)).
  assert (Hself : self w'
                  = with_df (self w)
                            (InternalCoupling.zero_fill [field] (df (self w))))
    by (apply (write_timeheight_self fname' None None None (Some field) w heights ts
                 eq_refl Hhs Hts)).
  assert (Hfield : Pandas.lookup_column field (columns (df (self w')))
                   = Some (repeat 0%float (length (index (df (self w)))))).
  { rewrite Hself. cbn [with_df df]. rewrite lookup_zero_fill.
    rewrite (has_column_false_lookup _ _ Hno). cbn [existsb].
    rewrite String.eqb_refl. reflexivity. }
  assert (Htime : Pandas.lookup_column "t_index" (columns (df (self w'))) = Some ts).
  { rewrite Hself. cbn [with_df df]. rewrite lookup_zero_fill, Hts. reflexivity. }
  split; [unfold Pandas.getitem; rewrite Hfield; reflexivity|].
  rewrite (write_BCs_run fname field fact w' ts _ Htime Hfield); [reflexivity| |].
  - rewrite repeat_length. symmetry. eapply lookup_well_formed; eauto.
  - apply zeros_complete.
Qed.

Lemma write_BCs_after_write_timeheight_witness :
  InternalCoupling.write_BCs "qwall" "v" 1%float profiles_world
  = (inl (MissingFieldError "v"), profiles_world)
  /\ fst (InternalCoupling.write_BCs
            "qwall" "v" 1%float
            (snd (InternalCoupling.write_timeheight
                    "forcing" None None None (Some "v") profiles_world)))
     = inr tt.
Proof.
  destruct (write_BCs_after_write_timeheight
              "qwall" "forcing" "v" 1%float profiles_world) as (Hbefore & _ & Hafter).
  - apply bound_copy_bound_frame. repeat constructor.
  - reflexivity.
  - reflexivity.
  - split; [exact Hbefore|exact Hafter].
Defined.

(** ** Holes in the grid of times and heights *)

Lemma find_none {A} (p : A -> bool) (l : list A) :
  (forall x, In x l -> p x = false) -> List.find p l = None.
Proof.
  induction l as [|x l IH]; intros H; cbn [List.find]; [reflexivity|].
  rewrite (H x) by (left; reflexivity). apply IH. intros y Hy. apply H. right. exact Hy.
Qed.

Lemma pivot_cell_hole (d : DataFrame) (heights values : list float) (l : Z)
    (z : float) :
  no_row_at d heights l z ->
  Pandas.pivot_cell (index d) heights values l z = PrimFloat.nan.
Proof.
  intros Hno. unfold Pandas.pivot_cell.
  rewrite find_none; [reflexivity|].
  intros [[l' h] v] Hin. apply in_combine_l in Hin. exact (Hno l' h Hin).
Qed.

Lemma dense_table_hole (d : DataFrame) (heights values : list float) (l : Z)
    (z : float) :
  In l (distinct_labels d) ->
  In z (distinct_heights heights) ->
  no_row_at d heights l z ->
  existsb Pandas.any_isna (dense_table d heights values) = true.
Proof.
  intros Hl Hz Hno. apply existsb_exists.
  exists (map (Pandas.pivot_cell (index d) heights values l) (distinct_heights heights)).
  split.
  - unfold dense_table. apply in_map_iff. exists l. split; [reflexivity|exact Hl].
  - unfold Pandas.any_isna. apply existsb_exists.
    exists (Pandas.pivot_cell (index d) heights values l z). split.
    + apply in_map_iff. exists z. split; [reflexivity|exact Hz].
    + rewrite (pivot_cell_hole d heights values l z Hno). reflexivity.
Qed.

(** X11. A time-height export of a temperature field checks the whole grid:
    when some distinct time and some distinct height of the frame have no row
    in common, the pivoted table has a missing cell there, whatever the
    field, and the export raises [IncompleteDataError] before it opens its
    file. *)
Theorem write_timeheight_missing_cell (fname temp : string) (w : World)
    (heights ts : list float) (l : Z) (z : float) :
  let d := df (self w) in
  Pandas.lookup_column "height" (columns d) = Some heights ->
  Pandas.lookup_column "t_index" (columns d) = Some ts ->
  Pandas.has_duplicates Pandas.same_cell (combine (index d) heights) = false ->
  In l (distinct_labels d) ->
  In z (distinct_heights heights) ->
  no_row_at d heights l z ->
  let run := InternalCoupling.write_timeheight fname None None None (Some temp) w in
  fst run = inl (AssertionError None) /\ fs (snd run) = fs w.
Proof.
  intros d Hh Ht Hdup Hl Hz Hno run.
  assert (Hrun : fst run = inl (AssertionError None)).
  { subst run. unfold InternalCoupling.write_timeheight.
    cbn [map InternalCoupling.is_not_None existsb forallb id orb andb]. cbn zeta.
    rewrite bind_ret, bind_get_self. fold d.
    unfold Pandas.getattr. rewrite Hh, Ht, !bind_lift_inr.
    rewrite (bind_run _ _ _ _ _ (zero_fill_loop _ w)).
    change (omap id [None; None; None; Some temp]) with [temp].
    rewrite bind_get_self. cbn [self with_df df]. fold d.
    set (d1 := InternalCoupling.zero_fill [temp] d).
    assert (Hh1 : Pandas.lookup_column "height" (columns d1) = Some heights)
      by (subst d1; rewrite lookup_zero_fill, Hh; reflexivity).
    assert (Hi1 : index d1 = index d) by apply index_zero_fill.
    assert (Ht1 : exists values, Pandas.lookup_column temp (columns d1) = Some values).
    { subst d1. rewrite lookup_zero_fill. cbn [existsb].
      rewrite String.eqb_refl. cbn [orb].
      destruct (Pandas.lookup_column temp (columns d)); eauto. }
    destruct Ht1 as [values Hv].
    unfold Pandas.pivot. rewrite Hh1. cbn [Pandas.any_missing].
    rewrite (lookup_has_column _ _ _ Hv). cbn [negb orb].
    rewrite Hi1, Hdup, bind_lift_inr. cbn [map]. rewrite Hv.
    cbn [for_each].
    erewrite pivot_values_single with (before := []) (after := []);
      [|reflexivity|constructor|constructor].
    rewrite bind_lift_inr. unfold table_any_isna. cbn [data].
    change (map (fun r => map (Pandas.pivot_cell (index d) heights values r)
                              (Pandas.sort PrimFloat.ltb
                                 (Pandas.unique Float64.same_key heights)))
                (Pandas.sort Z.ltb (Pandas.unique Z.eqb (index d))))
      with (dense_table d heights values).
    rewrite (dense_table_hole d heights values l z Hl Hz Hno). reflexivity. }
  split; [exact Hrun|].
  exact (write_timeheight_validates_first fname None None None (Some temp) w None Hrun).
Qed.

Lemma write_timeheight_missing_cell_witness :
  fst (InternalCoupling.write_timeheight "forcing" None None None (Some "theta")
         gappy_world)
  = inl (AssertionError None)
  /\ fs (snd (InternalCoupling.write_timeheight
                "forcing" None None None (Some "theta") gappy_world))
     = fs gappy_world.
Proof.
  refine (write_timeheight_missing_cell
            "forcing" "theta" gappy_world [0; 10; 0]%float
            (map (elapsed None) [sec 0; sec 0; sec 600]) (sec 600) 10%float
            eq_refl eq_refl eq_refl _ _ _).
  - vm_compute. tauto.
  - vm_compute. tauto.
  - intros l' h Hin. vm_compute in Hin.
    destruct Hin as [Hin|[Hin|[Hin|[]]]]; injection Hin as <- <-; reflexivity.
Defined.

(** ** The temperature blocks *)



(** ** The momentum blocks on ordered data *)

